(** * Panel menu behaviour of the dashboard scene

    A shallow embedding of
    [public/app/features/dashboard-scene/scene/PanelMenuBehavior.tsx]:
    the menu builder [panelMenuBehavior], its helpers [getExploreMenuItem],
    [getDataSources] and [convertPieChartToTable], and the click handlers
    the builder attaches to the entries.

    The builder talks to collaborators that live outside the file (the
    explore URL helper, the plugin extension registry, the panel link
    supplier, the alerting access check).  Their calls are the operations
    of a small command monad [Prog]; a [World] answers them, and [run]
    records every call in a trace. *)

From Stdlib Require Import ZArith Lia.
From stdpp Require Import base option list strings pretty gmap.

Set Warnings "-register-all".
Set Default Proof Using "Type".
Open Scope string_scope.
Open Scope list_scope.

(** ** JavaScript values held in panel options and field configuration *)

Inductive JsValue : Type :=
| JUndefined
| JNull
| JBool (b : bool)
| JNum (n : Z)
| JStr (s : string)
| JObj (fields : gmap string JsValue).

Abbreviation JsObject := (gmap string JsValue).

(** Property read [o.k]: an absent property reads as [undefined]. *)
Definition getProp (o : JsObject) (k : string) : JsValue :=
  default JUndefined (o !! k).

(** Optional chaining [v?.k].  [undefined] and [null] short-circuit to
    [undefined]; booleans, numbers and strings have no such own property
    for the keys this file reads. *)
Definition optChain (v : JsValue) (k : string) : JsValue :=
  match v with
  | JObj o => getProp o k
  | _ => JUndefined
  end.

(** The own properties of a string: its characters, keyed by their
    index written in decimal, from index [i] on. *)
Fixpoint spreadChars (i : nat) (s : string) : JsObject :=
  match s with
  | EmptyString => ∅
  | String c s' => <[pretty i := JStr (String c EmptyString)]> (spreadChars (S i) s')
  end.

(** Object spread [{...v}]: an object contributes its properties, a
    string its characters; [undefined], [null], booleans and numbers
    contribute no property. *)
Definition spread (v : JsValue) : JsObject :=
  match v with
  | JObj o => o
  | JStr s => spreadChars 0 s
  | _ => ∅
  end.

(** Strict equality with a string literal, [v === 'lit']. *)
Definition strictEqStr (v : JsValue) (lit : string) : bool :=
  match v with
  | JStr s => bool_decide (s = lit)
  | _ => false
  end.

(** Truthiness of a string: the empty string is falsy. *)
Definition truthyStr (s : string) : bool := negb (bool_decide (s = "")).

(** Truthiness of [string | undefined]. *)
Definition truthyOptStr (o : option string) : bool :=
  match o with
  | Some s => truthyStr s
  | None => false
  end.

(** ** Data model *)

(** [PluginExtensionTypes] of [@grafana/data]. *)
Inductive PluginExtensionTypes := ExtLink | ExtComponent | ExtFunction.

Global Instance PluginExtensionTypes_eq_dec : EqDecision PluginExtensionTypes.
Proof. solve_decision. Defined.

Record PluginExtension := {
  ext_id : string;
  ext_type : PluginExtensionTypes;
  ext_title : string;
  ext_description : string;
  ext_pluginId : string;
  ext_category : option string
}.

(** [PluginExtensionPoints]; the builder only names the panel menu. *)
Inductive PluginExtensionPoints := DashboardPanelMenu.

(** [InspectTab]; the builder uses three of the tabs. *)
Inductive InspectTab := TabData | TabQuery | TabJSON.

Record DataSourceRef := {
  ds_type : option string;
  ds_uid : option string
}.

Record DataQuery := {
  refId : string;
  datasource : option DataSourceRef
}.

Record LinkModel := {
  link_title : string;
  link_href : string
}.

Record Location := {
  pathname : string;
  search : string
}.

(** Values of URL query parameters. *)
Inductive QueryValue :=
| QStr (s : string)
| QNum (n : Z)
| QTab (tab : InspectTab)
| QNull
| QUndefined.

(** URLs, kept symbolic in the helper that renders them. *)
Inductive Url :=
| UrlString (s : string)
| UrlForPartial (loc : Location) (query : list (string * QueryValue))
| EditPanelUrl (panelId : Z)
| RenderUrl (path : string) (query : list (string * QueryValue)).

(** The closures the builder attaches as [onClick], one constructor per
    closure of the source; [ExtensionClicked] stands for a handler a
    plugin supplied. *)
Inductive Handler :=
| ViewClicked
| EditClicked
| ShareClicked
| ExploreClicked
| InspectClicked (tab : InspectTab)
| ExitFullscreenClicked
| ConvertToTableClicked
| DuplicateClicked
| CopyClicked
| UnlinkLibraryPanelClicked
| CreateLibraryPanelClicked
| PanelTimeOverrideClicked
| RemoveClicked
| NewAlertRuleClicked
| ExtensionClicked (id : string).

(** What the [subMenu] field of an entry holds: nothing, a list of
    entries, or (for the panel links entry) a [VizPanelLinksMenu] built
    over the raw links. *)
Inductive SubMenu (X : Type) : Type :=
| NoSubMenu
| SubItems (entries : list X)
| SubLinksMenu (rawLinks : list LinkModel).
Arguments NoSubMenu {X}.
Arguments SubItems {X} entries.
Arguments SubLinksMenu {X} rawLinks.

(** The scalar fields of a [PanelMenuItem]. *)
Record ItemFields := {
  text : string;
  iconClassName : option string;
  shortcut : option string;
  href : option Url;
  target : option string;
  tooltip : option string;
  tabindex : option Z;
  onClick : option Handler
}.

Inductive PanelMenuItem : Type :=
| MenuItem (fields : ItemFields) (subMenu : SubMenu PanelMenuItem).

Definition itemFields (i : PanelMenuItem) : ItemFields :=
  match i with MenuItem f _ => f end.

Definition itemSubMenu (i : PanelMenuItem) : SubMenu PanelMenuItem :=
  match i with MenuItem _ sm => sm end.

Definition itemText (i : PanelMenuItem) : string := text (itemFields i).

(** [t(key, default)] of [@grafana/i18n] with no translation loaded: the
    default text. *)
Definition t (key default : string) : string := default.

(** ** Observable state the builder reads *)

Record FieldConfigSource := {
  defaults : JsObject;
  overrides : list JsValue
}.

(** [panel.state].  Absent options read like an empty object. *)
Record VizPanelState := {
  pluginId : string;
  title : string;
  options : JsObject;
  fieldConfig : FieldConfigSource
}.

(** State of the panel's query runner, when it has one. *)
Record QueryRunnerState := {
  queries : option (list DataQuery);
  timeRange : string;
  timeZone : option string
}.

(** The panel as the builder observes it: its state and the answers of
    the scene utilities about it. *)
Record VizPanel := {
  state : VizPanelState;
  panelId : Z;                               (* getPanelIdForVizPanel(panel) *)
  pathId : string;                           (* panel.getPathId() *)
  pluginVersion : option string;             (* panel.getPlugin()?.meta.info.version *)
  queryRunner : option QueryRunnerState;     (* getQueryRunnerFor(panel) *)
  isRepeatCloneOrChildOf : bool;
  isLibraryPanel : bool
}.

Record DashboardMeta := {
  isEmbedded : bool;
  folderUid : option string
}.

(** [dashboard.state] and [dashboard.canEditDashboard()].  Optional
    booleans and object references are kept by their truthiness. *)
Record DashboardScene := {
  uid : string;
  dash_title : string;
  tags : option (list string);
  editable : bool;
  isDirty : bool;
  editPanel : bool;
  viewPanelScene : bool;
  meta : DashboardMeta;
  canEditDashboard : bool
}.

(** Everything one activation reads besides the collaborators' answers. *)
Record Inputs := {
  panel : VizPanel;
  dashboard : DashboardScene;
  hasAccessToExplore : bool;                 (* contextSrv.hasAccessToExplore() *)
  location : Location                        (* locationService.getLocation() *)
}.

Record ContextDashboard := {
  ctx_uid : string;
  ctx_dash_title : string;
  ctx_tags : list string
}.

(** [PluginExtensionPanelContext]; [scopedVars] holds the panel object
    itself and is not repeated here, [ctx_timeZone] is the argument
    handed to [getTimeZone]. *)
Record PluginExtensionPanelContext := {
  ctx_id : Z;
  ctx_pluginId : string;
  ctx_title : string;
  ctx_timeRange : option string;
  ctx_timeZone : option string;
  ctx_dashboard : ContextDashboard;
  ctx_targets : list DataQuery
}.

Record AlertDashboard := {
  ad_uid : string;
  ad_title : string;
  ad_editable : bool;
  ad_folderUID : option string
}.

Record AlertPanel := {
  ap_id : Z;
  ap_targets : list DataQuery;
  ap_type : string;
  ap_title : string;
  ap_pluginVersion : string
}.

(** Argument of [getCreateAlertInMenuAvailability]. *)
Record AlertArgs := {
  datasources : list string;
  alert_dashboard : AlertDashboard;
  alert_panel : AlertPanel
}.

(** ** Collaborators and the command monad *)

(** A settled promise. *)
Inductive Settled (A : Type) : Type :=
| Resolved (a : A)
| Rejected (err : string).
Arguments Resolved {A} a.
Arguments Rejected {A} err.

(** The getter function held in the module variable
    [getPluginExtensions], known by its identity. *)
Definition Getter := nat.

(** Calls that leave the file.  The two awaited ones answer with a
    settled promise; the others are taken to return. *)
Inductive Call :=
| CreatePluginExtensionsGetter
    (* createPluginExtensionsGetter(pluginExtensionRegistries) *)
| InvokeGetPluginExtensions (g : Getter) (extensionPointId : PluginExtensionPoints)
| CreateExtensionSubMenu (extensions : list PluginExtension)
    (context : PluginExtensionPanelContext) (placement : string)
| GetPanelLinks (pluginId : string)
    (* getScenePanelLinksSupplier(panel)?.getLinks(pluginId) *)
| TryGetExploreUrlForPanel
| GetCreateAlertInMenuAvailability (args : AlertArgs).

Definition Response (c : Call) : Type :=
  match c with
  | CreatePluginExtensionsGetter => Getter
  | InvokeGetPluginExtensions _ _ => list PluginExtension
  | CreateExtensionSubMenu _ _ _ => list PanelMenuItem
  | GetPanelLinks _ => option (list LinkModel)
  | TryGetExploreUrlForPanel => Settled (option string)
  | GetCreateAlertInMenuAvailability _ => Settled bool
  end.

(** The collaborators: an answer for every call. *)
Definition World := ∀ c : Call, Response c.

Inductive Prog (A : Type) : Type :=
| Ret (a : A)
| Throw (err : string)
| Do (c : Call) (k : Response c → Prog A)
| ReadGetter (k : option Getter → Prog A)
| WriteGetter (g : Getter) (k : Prog A)
| MenuSetState (items : list PanelMenuItem) (k : Prog A).
Arguments Ret {A} a.
Arguments Throw {A} err.
Arguments Do {A} c k.
Arguments ReadGetter {A} k.
Arguments WriteGetter {A} g k.
Arguments MenuSetState {A} items k.

Fixpoint bind {A B : Type} (p : Prog A) (f : A → Prog B) : Prog B :=
  match p with
  | Ret a => f a
  | Throw e => Throw e
  | Do c k => Do c (λ r, bind (k r) f)
  | ReadGetter k => ReadGetter (λ g, bind (k g) f)
  | WriteGetter g k => WriteGetter g (bind k f)
  | MenuSetState items k => MenuSetState items (bind k f)
  end.

Global Instance Prog_ret : MRet Prog := @Ret.
Global Instance Prog_bind : MBind Prog := λ A B f p, bind p f.

(** A synchronous call. *)
Definition call (c : Call) : Prog (Response c) := Do c Ret.

(** [await] of a settled promise: a rejection is thrown. *)
Definition await {A : Type} (r : Settled A) : Prog A :=
  match r with
  | Resolved a => Ret a
  | Rejected e => Throw e
  end.

(** What persists between activations: the module variable and the
    state of the menu object. *)
Record Store := {
  getPluginExtensions : option Getter;
  menuItems : list PanelMenuItem
}.

Inductive Event :=
| Called (c : Call)
| SetState (items : list PanelMenuItem)
| ConsoleError (msg err : string).

Inductive Outcome (A : Type) : Type :=
| Returned (a : A)
| Threw (err : string).
Arguments Returned {A} a.
Arguments Threw {A} err.

Fixpoint run {A : Type} (w : World) (s : Store) (p : Prog A)
  : Outcome A * Store * list Event :=
  match p with
  | Ret a => (Returned a, s, [])
  | Throw e => (Threw e, s, [])
  | Do c k =>
      let '(o, s', tr) := run w s (k (w c)) in (o, s', Called c :: tr)
  | ReadGetter k => run w s (k (getPluginExtensions s))
  | WriteGetter g k =>
      run w {| getPluginExtensions := Some g; menuItems := menuItems s |} k
  | MenuSetState items k =>
      let '(o, s', tr) :=
        run w {| getPluginExtensions := getPluginExtensions s;
                 menuItems := items |} k in
      (o, s', SetState items :: tr)
  end.

(** ** The builder *)

(** Define the category for metrics drilldown links *)
Definition METRICS_DRILLDOWN_CATEGORY : string := "metrics-drilldown".

Definition push {A : Type} (l : list A) (x : A) : list A := l ++ [x].

(** [if (c) { l.push(x) }]. *)
Definition pushIf {A : Type} (c : bool) (l : list A) (x : A) : list A :=
  if c then push l x else l.

Definition setupGetPluginExtensions : Prog Getter :=
  ReadGetter (λ cached,
    match cached with
    | Some g => Ret g
    | None =>
        g ← call CreatePluginExtensionsGetter;
        WriteGetter g (Ret g)
    end).

(** The entries of the menu, one definition per object literal of the
    source. *)
Definition exploreItem (exploreUrl : string) : PanelMenuItem :=
  MenuItem
    {| text := t "panel.header-menu.explore" "Explore";
       iconClassName := Some "compass";
       shortcut := Some "x";
       href := Some (UrlString exploreUrl);
       target := None; tooltip := None; tabindex := None;
       onClick := Some ExploreClicked |}
    NoSubMenu.

Definition getExploreMenuItem (inp : Inputs) : Prog (option PanelMenuItem) :=
  if negb (hasAccessToExplore inp) then mret None
  else
    exploreUrl ← call TryGetExploreUrlForPanel ≫= await;
    if negb (truthyOptStr exploreUrl) then mret None
    else mret (Some (exploreItem (default "" exploreUrl))).

(** [[...new Set(result)]]: the first occurrence of each element, in
    order. *)
Fixpoint uniq (seen : list string) (l : list string) : list string :=
  match l with
  | [] => []
  | x :: l' =>
      if bool_decide (x ∈ seen) then uniq seen l'
      else x :: uniq (x :: seen) l'
  end.

Definition getDataSources (p : VizPanel) : list string :=
  match queryRunner p with
  | None => []
  | Some qr =>
      let queries := default [] (queries qr) in
      let result :=
        omap (λ query,
          match datasource query with
          | Some ds =>
              match ds_uid ds with
              | Some u => if truthyStr u then Some u else None
              | None => None
              end
          | None => None
          end) queries in
      uniq [] result
  end.

(** The [context] object handed to the extension sub menu. *)
Definition panelContext (inp : Inputs) : PluginExtensionPanelContext :=
  let panel := panel inp in
  let dashboard := dashboard inp in
  let panelQueryRunner := queryRunner panel in
  {| ctx_id := panelId panel;
     ctx_pluginId := pluginId (state panel);
     ctx_title := title (state panel);
     ctx_timeRange := timeRange <$> panelQueryRunner;
     ctx_timeZone := panelQueryRunner ≫= timeZone;
     ctx_dashboard :=
       {| ctx_uid := uid dashboard;
          ctx_dash_title := dash_title dashboard;
          ctx_tags := default [] (tags dashboard) |};
     ctx_targets := default [] (panelQueryRunner ≫= queries) |}.

(** [extensions.filter(...).filter(...).slice(0, 3)]. *)
Definition linkExtensionsOf (extensions : list PluginExtension)
  : list PluginExtension :=
  take 3
    (filter (λ extension,
               truthyStr (ext_title extension)
               && truthyStr (ext_description extension) = true)
       (filter (λ extension, ext_type extension = ExtLink) extensions)).

(** The argument of the alert rule availability check. *)
Definition alertArgs (inp : Inputs) : AlertArgs :=
  let panel := panel inp in
  let dashboard := dashboard inp in
  let panelQueryRunner := queryRunner panel in
  {| datasources := getDataSources panel;
     alert_dashboard :=
       {| ad_uid := uid dashboard;
          ad_title := dash_title dashboard;
          ad_editable := editable dashboard;
          ad_folderUID := folderUid (meta dashboard) |};
     alert_panel :=
       {| ap_id := panelId panel;
          ap_targets := default [] (panelQueryRunner ≫= queries);
          ap_type := pluginId (state panel);
          ap_title := title (state panel);
          ap_pluginVersion := default "8.0.0" (pluginVersion panel) |} |}.

Definition viewItem (inp : Inputs) : PanelMenuItem :=
  MenuItem
    {| text := t "panel.header-menu.view" "View";
       iconClassName := Some "eye";
       shortcut := Some "v";
       href := Some (UrlForPartial (location inp)
                 [("viewPanel", QStr (pathId (panel inp)));
                  ("editPanel", QUndefined)]);
       target := None; tooltip := None; tabindex := None;
       onClick := Some ViewClicked |}
    NoSubMenu.

Definition editItem (inp : Inputs) : PanelMenuItem :=
  MenuItem
    {| text := t "panel.header-menu.edit" "Edit";
       iconClassName := Some "edit";
       shortcut := Some "e";
       href := Some (EditPanelUrl (panelId (panel inp)));
       target := None; tooltip := None; tabindex := None;
       onClick := Some EditClicked |}
    NoSubMenu.

Definition shareItem : PanelMenuItem :=
  MenuItem
    {| text := t "panel.header-menu.share" "Share";
       iconClassName := Some "share-alt";
       shortcut := Some "p s";
       href := None; target := None; tooltip := None; tabindex := None;
       onClick := Some ShareClicked |}
    NoSubMenu.

(** The three entries of the inspector sub menu differ in their text
    and tab only. *)
Definition inspectTabItem (inp : Inputs) (txt : string) (tab : InspectTab)
  : PanelMenuItem :=
  MenuItem
    {| text := txt;
       iconClassName := None; shortcut := None;
       href := Some (UrlForPartial (location inp)
                 [("inspect", QNum (panelId (panel inp)));
                  ("inspectTab", QTab tab)]);
       target := None; tooltip := None; tabindex := None;
       onClick := Some (InspectClicked tab) |}
    NoSubMenu.

Definition inspectItem (inspectorSubMenu : list PanelMenuItem) : PanelMenuItem :=
  MenuItem
    {| text := t "panel.header-menu.inspect" "Inspect";
       iconClassName := Some "info-circle";
       shortcut := Some "i";
       href := None; target := None; tooltip := None; tabindex := None;
       onClick := None |}
    (SubItems inspectorSubMenu).

Definition exitFullscreenItem : PanelMenuItem :=
  MenuItem
    {| text := t "panel.header-menu.view-panel-fullscreen" "Exit fullscreen";
       iconClassName := Some "arrow-left";
       shortcut := None; href := None; target := None; tooltip := None;
       tabindex := None;
       onClick := Some ExitFullscreenClicked |}
    NoSubMenu.

Definition convertToTableItem : PanelMenuItem :=
  MenuItem
    {| text := t "panel.header-menu.pie-chart-to-table" "Convert to table";
       iconClassName := Some "table";
       shortcut := None; href := None; target := None; tooltip := None;
       tabindex := None;
       onClick := Some ConvertToTableClicked |}
    NoSubMenu.

Definition duplicateItem : PanelMenuItem :=
  MenuItem
    {| text := t "panel.header-menu.duplicate" "Duplicate";
       iconClassName := Some "copy";
       shortcut := Some "p d";
       href := None; target := None; tooltip := None; tabindex := None;
       onClick := Some DuplicateClicked |}
    NoSubMenu.

Definition copyItem : PanelMenuItem :=
  MenuItem
    {| text := t "panel.header-menu.copy" "Copy";
       iconClassName := Some "clipboard-alt";
       shortcut := None; href := None; target := None; tooltip := None;
       tabindex := None;
       onClick := Some CopyClicked |}
    NoSubMenu.

Definition unlinkItem (unlinkText : string) : PanelMenuItem :=
  MenuItem
    {| text := unlinkText;
       iconClassName := Some "unlink";
       shortcut := None; href := None; target := None; tooltip := None;
       tabindex := None;
       onClick := Some UnlinkLibraryPanelClicked |}
    NoSubMenu.

Definition createLibraryPanelItem : PanelMenuItem :=
  MenuItem
    {| text := t "panel.header-menu.create-library-panel" "Create library panel";
       iconClassName := Some "library-panel";
       shortcut := None; href := None; target := None; tooltip := None;
       tabindex := None;
       onClick := Some CreateLibraryPanelClicked |}
    NoSubMenu.

Definition panelTimeOverrideItem : PanelMenuItem :=
  MenuItem
    {| text := t "panel.header-menu.panel-time-override" "Panel time override";
       iconClassName := Some "clock-nine";
       shortcut := None; href := None; target := None; tooltip := None;
       tabindex := None;
       onClick := Some PanelTimeOverrideClicked |}
    NoSubMenu.

(** [subMenu] is a [VizPanelLinksMenu] over the raw links here. *)
Definition panelLinksItem (links : list LinkModel) : PanelMenuItem :=
  MenuItem
    {| text := t "panel.header-menu.panel-links" "Panel links";
       iconClassName := Some "external-link-alt";
       shortcut := None; href := None; target := None; tooltip := None;
       tabindex := None; onClick := None |}
    (SubLinksMenu links).

Definition removeItem : PanelMenuItem :=
  MenuItem
    {| text := "";  (* No text, just icon *)
       iconClassName := Some "times";  (* X icon *)
       shortcut := None; href := None; target := None;
       tooltip := Some (t "panel.header-menu.remove-panel" "Remove this panel");
       tabindex := None;
       onClick := Some RemoveClicked |}
    NoSubMenu.

Definition newAlertRuleItem : PanelMenuItem :=
  MenuItem
    {| text := t "panel.header-menu.new-alert-rule" "New alert rule";
       iconClassName := Some "bell";
       shortcut := None; href := None; target := None; tooltip := None;
       tabindex := None;
       onClick := Some NewAlertRuleClicked |}
    NoSubMenu.

Definition getHelpItem : PanelMenuItem :=
  MenuItem
    {| text := t "panel.header-menu.get-help" "Get help";
       iconClassName := Some "question-circle";
       shortcut := None;
       href := Some (UrlString
         "https://grafana.com/docs/grafana/latest/panels-visualizations/");
       target := Some "_blank";
       tooltip := None; tabindex := None; onClick := None |}
    NoSubMenu.

Definition moreItem (moreSubMenu : list PanelMenuItem) : PanelMenuItem :=
  MenuItem
    {| text := t "panel.header-menu.more" "More...";
       iconClassName := Some "cube";
       shortcut := None; href := None; target := None; tooltip := None;
       tabindex := Some (-1)%Z;
       onClick := None |}
    (SubItems moreSubMenu).

(** The body of [asyncFunc] in [panelMenuBehavior]. *)
Definition asyncFunc (inp : Inputs) : Prog () :=
  let panel := panel inp in
  let dashboard := dashboard inp in
  let items : list PanelMenuItem := [] in
  let moreSubMenu : list PanelMenuItem := [] in
  let isEmbedded := isEmbedded (meta dashboard) in
  exploreMenuItem ← getExploreMenuItem inp;
  let isReadOnlyRepeat := isRepeatCloneOrChildOf panel in
  (* For embedded dashboards we only have explore action for now *)
  if isEmbedded then
    match exploreMenuItem with
    | Some e => MenuSetState [e] (Ret ())
    | None => Ret ()
    end
  else
    let isEditingPanel := editPanel dashboard in
    let items := pushIf (negb isEditingPanel) items (viewItem inp) in
    let items :=
      pushIf (canEditDashboard dashboard && editable dashboard
              && negb isReadOnlyRepeat && negb isEditingPanel)
        items (editItem inp) in
    let subMenu : list PanelMenuItem := [] in
    let subMenu := push subMenu shareItem in
    let subMenu :=
      match exploreMenuItem with
      | Some e => push subMenu e
      | None => subMenu
      end in
    (* Inspector *)
    let inspectorSubMenu : list PanelMenuItem := [] in
    let inspectorSubMenu := push inspectorSubMenu
      (inspectTabItem inp (t "panel.header-menu.inspect-data" "Data") TabData) in
    let inspectorSubMenu := push inspectorSubMenu
      (inspectTabItem inp (t "panel.header-menu.inspect-query" "Query") TabQuery) in
    let inspectorSubMenu := push inspectorSubMenu
      (inspectTabItem inp (t "panel.header-menu.inspect-json" "Panel JSON") TabJSON) in
    let subMenu := push subMenu (inspectItem inspectorSubMenu) in
    (* add undock item to main panel menu *)
    let items := pushIf (viewPanelScene dashboard) items exitFullscreenItem in
    (* Add extension point links *)
    let extensionPointId := DashboardPanelMenu in
    getter ← setupGetPluginExtensions;
    extensions ← call (InvokeGetPluginExtensions getter extensionPointId);
    let context := panelContext inp in
    let linkExtensions := linkExtensionsOf extensions in
    extensionSubMenu ← call (CreateExtensionSubMenu linkExtensions context "top");
    let subMenu :=
      if bool_decide (0 < length extensionSubMenu)%nat
      then subMenu ++ extensionSubMenu else subMenu in
    let moreSubMenu :=
      if bool_decide (pluginId (state panel) = "piechart") then
        let pieChartDisplayOptions :=
          optChain (getProp (options (state panel)) "legend") "displayMode" in
        pushIf (strictEqStr pieChartDisplayOptions "table") moreSubMenu
          convertToTableItem
      else moreSubMenu in
    (* More sub menu *)
    let moreSubMenu :=
      if canEditDashboard dashboard && negb isReadOnlyRepeat then
        let moreSubMenu := push moreSubMenu duplicateItem in
        push moreSubMenu copyItem
      else moreSubMenu in
    let moreSubMenu :=
      if isLibraryPanel panel then
        let unlinkText :=
          t "panel.header-menu.unlink-library-panel" "Unlink library panel" in
        pushIf (canEditDashboard dashboard) moreSubMenu (unlinkItem unlinkText)
      else
        pushIf (hasAccessToExplore inp
                && negb (bool_decide (pluginId (state panel) = "timeseries")))
          moreSubMenu createLibraryPanelItem in
    (* Panel time override *)
    let moreSubMenu := push moreSubMenu panelTimeOverrideItem in
    (* Link extensions *)
    linksSupplied ← call (GetPanelLinks (pluginId (state panel)));
    let links := default [] linksSupplied in
    let moreSubMenu :=
      pushIf (bool_decide (0 < length links)%nat) moreSubMenu
        (panelLinksItem links) in
    let items :=
      pushIf (negb isEditingPanel && canEditDashboard dashboard
              && negb isReadOnlyRepeat)
        items removeItem in
    (* Get alert rule create availability *)
    canCreateAlertRule ←
      call (GetCreateAlertInMenuAvailability (alertArgs inp)) ≫= await;
    let moreSubMenu :=
      pushIf (canCreateAlertRule && negb isReadOnlyRepeat) moreSubMenu
        newAlertRuleItem in
    let subMenu :=
      if bool_decide (0 < length moreSubMenu)%nat then
        let moreSubMenu := push moreSubMenu getHelpItem in
        push subMenu (moreItem moreSubMenu)
      else subMenu in
    (* Combine main items with sub menu items *)
    let items := items ++ subMenu in
    MenuSetState items (Ret ()).

(** [panelMenuBehavior(menu)]: run the body; a failure is caught and
    logged to the console. *)
Definition panelMenuBehavior (w : World) (inp : Inputs) (s : Store)
  : Store * list Event :=
  match run w s (asyncFunc inp) with
  | (Returned _, s', tr) => (s', tr)
  | (Threw err, s', tr) =>
      (s', tr ++ [ConsoleError "Error in panelMenuBehavior" err])
  end.

(** ** Click handlers *)

Inductive Modal :=
| ShareDrawer
| PanelInspectDrawer (initialTab : InspectTab)
| UnlinkLibraryPanelModal
| PanelTimeRangeDrawer.

(** [createErrorNotification(title, text)]. *)
Record Notification := {
  severity : string;
  notif_title : string;
  notif_text : string
}.

Definition createErrorNotification (title text : string) : Notification :=
  {| severity := "error"; notif_title := title; notif_text := text |}.

(** The callbacks the handlers create: [onSuccess] and [onError] of the
    alert rule handler, [onConfirm] of the remove handler. *)
Inductive Callback := OnSuccess | OnError | OnConfirm.

Record ShowConfirmModalEvent := {
  cm_title : string;
  cm_text : string;
  cm_text2 : string;
  cm_yesText : string;
  cm_icon : string;
  cm_onConfirm : Callback
}.

(** What a handler does to the rest of the application. *)
Inductive Effect :=
| PanelActionClicked (item : string) (id : Z) (source : string)
| ShowModal (m : Modal)
| LocationPartial (query : list (string * QueryValue))
| LocationPush (url : Url)
| DuplicatePanel
| CopyPanel
| CreateLibraryPanel
| RemovePanel
| Publish (e : ShowConfirmModalEvent)
| SaveAndUpdate
| Dispatch (n : Notification)
| PluginHandler (id : string).

(** The application as the handlers see it: the panel state they mutate,
    the dashboard fields they read and assign, and a log of the effects
    they caused, oldest first.  The log holds their calls to the rest of
    the application; a write to the panel state is not logged, it shows
    in [app_panel]. *)
Record App := {
  app_panel : VizPanelState;
  app_panelId : Z;
  app_isDirty : bool;                    (* dashboard.state.isDirty *)
  onSaveCompleted : option Callback;     (* dashboard.onSaveCompleted *)
  onSaveError : option Callback;         (* dashboard.onSaveError *)
  app_location : Location;
  ruleFormValues : string;
    (* JSON.stringify(scenesPanelToRuleFormValues(panel, dashboard)) *)
  effects : list Effect
}.

Definition emit (e : Effect) (a : App) : App :=
  {| app_panel := app_panel a; app_panelId := app_panelId a;
     app_isDirty := app_isDirty a;
     onSaveCompleted := onSaveCompleted a; onSaveError := onSaveError a;
     app_location := app_location a; ruleFormValues := ruleFormValues a;
     effects := effects a ++ [e] |}.

Definition setPanelState (st : VizPanelState) (a : App) : App :=
  {| app_panel := st; app_panelId := app_panelId a;
     app_isDirty := app_isDirty a;
     onSaveCompleted := onSaveCompleted a; onSaveError := onSaveError a;
     app_location := app_location a; ruleFormValues := ruleFormValues a;
     effects := effects a |}.

Definition setSaveCallbacks (done failed : Callback) (a : App) : App :=
  {| app_panel := app_panel a; app_panelId := app_panelId a;
     app_isDirty := app_isDirty a;
     onSaveCompleted := Some done; onSaveError := Some failed;
     app_location := app_location a; ruleFormValues := ruleFormValues a;
     effects := effects a |}.

(** [convertPieChartToTable(panel)].  [panel.setState] merges the update
    into the state, so the title stays. *)
Definition convertPieChartToTable (a : App) : App :=
  let st := app_panel a in
  let a :=
    setPanelState
      {| pluginId := "table";
         title := title st;
         options := <["legend" := JUndefined]> (options st);
         fieldConfig :=
           {| defaults :=
                <["custom" :=
                    JObj (<["displayMode" := JStr "auto"]>
                            (spread (getProp (defaults (fieldConfig st)) "custom")))]>
                  (defaults (fieldConfig st));
              overrides := overrides (fieldConfig st) |} |} a in
  emit (PanelActionClicked "convert-to-table" (app_panelId a) "panel") a.

(** [onSuccess] of the alert rule handler. *)
Definition onSuccess (a : App) : App :=
  emit (LocationPush
          (RenderUrl "/alerting/new/alerting"
             [("defaults", QStr (ruleFormValues a));
              ("returnTo",
               QStr (String.append (pathname (app_location a))
                                   (search (app_location a))))])) a.

(** [onError] of the alert rule handler; the error is known by its
    message, [getMessageFromError(error)]. *)
Definition onError (error : string) (a : App) : App :=
  emit (Dispatch (createErrorNotification "Panel not saved" error)) a.

(** The [onClick] closures. *)
Definition click (h : Handler) (a : App) : App :=
  let id := app_panelId a in
  match h with
  | ViewClicked => emit (PanelActionClicked "view" id "panel") a
  | EditClicked => emit (PanelActionClicked "edit" id "panel") a
  | ShareClicked =>
      emit (ShowModal ShareDrawer) (emit (PanelActionClicked "share" id "panel") a)
  | ExploreClicked => emit (PanelActionClicked "explore" id "panel") a
  | InspectClicked tab =>
      let item :=
        match tab with
        | TabData => "inspect-data"
        | TabQuery => "inspect-query"
        | TabJSON => "inspect-json"
        end in
      emit (ShowModal (PanelInspectDrawer tab))
        (emit (PanelActionClicked item id "panel-menu-inspect") a)
  | ExitFullscreenClicked =>
      emit (LocationPartial [("viewPanel", QNull)])
        (emit (PanelActionClicked "view-panel-fullscreen" id "panel") a)
  | ConvertToTableClicked => convertPieChartToTable a
  | DuplicateClicked =>
      emit DuplicatePanel (emit (PanelActionClicked "duplicate" id "panel") a)
  | CopyClicked =>
      emit CopyPanel (emit (PanelActionClicked "copy" id "panel") a)
  | UnlinkLibraryPanelClicked =>
      emit (ShowModal UnlinkLibraryPanelModal)
        (emit (PanelActionClicked "unlink-from-library" id "panel") a)
  | CreateLibraryPanelClicked =>
      emit CreateLibraryPanel
        (emit (PanelActionClicked "create-library-panel" id "panel") a)
  | PanelTimeOverrideClicked =>
      emit (ShowModal PanelTimeRangeDrawer)
        (emit (PanelActionClicked "panel-time-override" id "panel") a)
  | RemoveClicked =>
      emit (Publish
              {| cm_title := t "panel.header-menu.remove-panel-title" "Remove panel";
                 cm_text := t "panel.header-menu.remove-panel-text"
                              "Are you sure you want to remove this panel?";
                 cm_text2 := t "panel.header-menu.remove-panel-text2"
                               "This action cannot be undone";
                 cm_yesText := t "panel.header-menu.remove-panel-confirm" "Remove";
                 cm_icon := "trash-alt";
                 cm_onConfirm := OnConfirm |})
        (emit (PanelActionClicked "remove" id "panel") a)
  | NewAlertRuleClicked =>
      let a := emit (PanelActionClicked "create-alert-rule" id "panel") a in
      (* need to ensure dashboard is saved before directing to alerting *)
      if app_isDirty a then
        emit SaveAndUpdate (setSaveCallbacks OnSuccess OnError a)
      else onSuccess a
  | ExtensionClicked ext => emit (PluginHandler ext) a
  end.

(** Running a stored callback; [error] is the argument a failure
    callback receives. *)
Definition runCallback (cb : Callback) (error : string) (a : App) : App :=
  match cb with
  | OnSuccess => onSuccess a
  | OnError => onError error a
  | OnConfirm => emit RemovePanel a
  end.

Inductive SaveResult :=
| SaveSucceeded
| SaveFailed (error : string).

(** Modelled from the spec: [DashboardScene.saveAndUpdate] is not among
    the sources.  A save that the handler triggered ends by invoking the
    callback registered for its result: [onSaveCompleted] when the save
    succeeded, [onSaveError] with the error when it failed. *)
Definition saveSettled (r : SaveResult) (a : App) : App :=
  match r with
  | SaveSucceeded =>
      match onSaveCompleted a with
      | Some cb => runCallback cb "" a
      | None => a
      end
  | SaveFailed error =>
      match onSaveError a with
      | Some cb => runCallback cb error a
      | None => a
      end
  end.

(** ** The outcome of one activation, in closed form *)

(** Entries guarded by a condition, as a table: the selected entries are
    those whose condition holds, in the order of the table. *)
Fixpoint selected {A : Type} (table : list (bool * A)) : list A :=
  match table with
  | [] => []
  | (c, x) :: table' => if c then x :: selected table' else selected table'
  end.

(** The entries pushed on [items] before the sub menu is appended. *)
Definition topTable (inp : Inputs) : list (bool * PanelMenuItem) :=
  let d := dashboard inp in
  let isReadOnlyRepeat := isRepeatCloneOrChildOf (panel inp) in
  [ (negb (editPanel d), viewItem inp);
    (canEditDashboard d && editable d && negb isReadOnlyRepeat
     && negb (editPanel d), editItem inp);
    (viewPanelScene d, exitFullscreenItem);
    (negb (editPanel d) && canEditDashboard d && negb isReadOnlyRepeat,
     removeItem) ].

(** The legend display mode the builder reads for a pie chart. *)
Definition legendIsTable (inp : Inputs) : bool :=
  strictEqStr
    (optChain (getProp (options (state (panel inp))) "legend") "displayMode")
    "table".

(** The entries pushed on [moreSubMenu] before the help entry. *)
Definition moreTable (inp : Inputs) (links : list LinkModel)
    (canCreateAlertRule : bool) : list (bool * PanelMenuItem) :=
  let d := dashboard inp in
  let p := panel inp in
  let isReadOnlyRepeat := isRepeatCloneOrChildOf p in
  [ (bool_decide (pluginId (state p) = "piechart") && legendIsTable inp,
     convertToTableItem);
    (canEditDashboard d && negb isReadOnlyRepeat, duplicateItem);
    (canEditDashboard d && negb isReadOnlyRepeat, copyItem);
    (isLibraryPanel p && canEditDashboard d,
     unlinkItem "Unlink library panel");
    (negb (isLibraryPanel p)
     && (hasAccessToExplore inp
         && negb (bool_decide (pluginId (state p) = "timeseries"))),
     createLibraryPanelItem);
    (true, panelTimeOverrideItem);
    (bool_decide (0 < length links)%nat, panelLinksItem links);
    (canCreateAlertRule && negb isReadOnlyRepeat, newAlertRuleItem) ].

Definition inspectorEntries (inp : Inputs) : list PanelMenuItem :=
  [ inspectTabItem inp "Data" TabData;
    inspectTabItem inp "Query" TabQuery;
    inspectTabItem inp "Panel JSON" TabJSON ].

(** The getter an activation uses: the cached one, or a fresh one. *)
Definition getterInUse (w : World) (s : Store) : Getter :=
  default (w CreatePluginExtensionsGetter) (getPluginExtensions s).

Definition extensionsOf (w : World) (s : Store) : list PluginExtension :=
  w (InvokeGetPluginExtensions (getterInUse w s) DashboardPanelMenu).

Definition extensionSubMenuOf (w : World) (inp : Inputs) (s : Store)
  : list PanelMenuItem :=
  w (CreateExtensionSubMenu (linkExtensionsOf (extensionsOf w s))
       (panelContext inp) "top").

Definition linksOf (w : World) (inp : Inputs) : list LinkModel :=
  default [] (w (GetPanelLinks (pluginId (state (panel inp))))).

(** What [getExploreMenuItem] yields in a world. *)
Definition exploreResult (w : World) (inp : Inputs)
  : Outcome (option PanelMenuItem) :=
  if hasAccessToExplore inp then
    match w TryGetExploreUrlForPanel with
    | Resolved u =>
        Returned (if truthyOptStr u then Some (exploreItem (default "" u))
                  else None)
    | Rejected err => Threw err
    end
  else Returned None.

Definition exploreTrace (inp : Inputs) : list Event :=
  if hasAccessToExplore inp then [Called TryGetExploreUrlForPanel] else [].

(** The call [setupGetPluginExtensions] makes: none once the getter is
    cached. *)
Definition setupCalls (s : Store) : list Event :=
  match getPluginExtensions s with
  | Some _ => []
  | None => [Called CreatePluginExtensionsGetter]
  end.

(** The calls of the non-embedded path after the explore step. *)
Definition builderCalls (w : World) (inp : Inputs) (s : Store) : list Event :=
  setupCalls s
  ++ [ Called (InvokeGetPluginExtensions (getterInUse w s) DashboardPanelMenu);
       Called (CreateExtensionSubMenu (linkExtensionsOf (extensionsOf w s))
                 (panelContext inp) "top");
       Called (GetPanelLinks (pluginId (state (panel inp))));
       Called (GetCreateAlertInMenuAvailability (alertArgs inp)) ].

(** The menu of a non-embedded activation that completes. *)
Definition builtMenu (w : World) (inp : Inputs) (s : Store)
    (exploreMenuItem : option PanelMenuItem) (canCreateAlertRule : bool)
  : list PanelMenuItem :=
  selected (topTable inp)
  ++ [shareItem] ++ option_list exploreMenuItem
  ++ [inspectItem (inspectorEntries inp)]
  ++ extensionSubMenuOf w inp s
  ++ [moreItem (selected (moreTable inp (linksOf w inp) canCreateAlertRule)
                ++ [getHelpItem])].

Definition withGetter (g : Getter) (s : Store) : Store :=
  {| getPluginExtensions := Some g; menuItems := menuItems s |}.

Definition withMenu (items : list PanelMenuItem) (s : Store) : Store :=
  {| getPluginExtensions := getPluginExtensions s; menuItems := items |}.

Definition caught (err : string) : Event :=
  ConsoleError "Error in panelMenuBehavior" err.

(** ** Observations on menus and traces *)

(** The menus an activation produced: the arguments of its
    [menu.setState] calls. *)
Definition menusSet (tr : list Event) : list (list PanelMenuItem) :=
  omap (λ ev, match ev with SetState items => Some items | _ => None end) tr.

Definition isExploreCall (ev : Event) : bool :=
  match ev with
  | Called TryGetExploreUrlForPanel => true
  | _ => false
  end.

Definition isAvailabilityCall (ev : Event) : bool :=
  match ev with
  | Called (GetCreateAlertInMenuAvailability _) => true
  | _ => false
  end.

Definition isError (ev : Event) : bool :=
  match ev with
  | ConsoleError _ _ => true
  | _ => false
  end.

Fixpoint count (f : Event → bool) (tr : list Event) : nat :=
  match tr with
  | [] => 0
  | ev :: tr' => (if f ev then 1 else 0) + count f tr'
  end.

(** How often the explore URL was fetched, and how often the alert rule
    availability was checked. *)
Definition exploreCalls (tr : list Event) : nat := count isExploreCall tr.
Definition availabilityCalls (tr : list Event) : nat := count isAvailabilityCall tr.

(** An activation completed without error when nothing was caught. *)
Definition completed (tr : list Event) : Prop := count isError tr = 0%nat.

(** An entry together with the entries nested below it. *)
Fixpoint entriesOf (i : PanelMenuItem) : list PanelMenuItem :=
  match i with
  | MenuItem _ sm =>
      i :: match sm with
           | SubItems l =>
               (fix go (l : list PanelMenuItem) : list PanelMenuItem :=
                  match l with
                  | [] => []
                  | x :: l' => entriesOf x ++ go l'
                  end) l
           | _ => []
           end
  end.

(** The entries of a menu at every level. *)
Definition allEntries (items : list PanelMenuItem) : list PanelMenuItem :=
  items ≫= entriesOf.

Definition isLeaf (i : PanelMenuItem) : Prop := itemSubMenu i = NoSubMenu.

(** Nested at most two levels deep: a top-level entry may carry a sub
    menu, the entries of a sub menu carry none. *)
Definition twoLevel (items : list PanelMenuItem) : Prop :=
  ∀ i, i ∈ items →
    match itemSubMenu i with
    | SubItems l => ∀ j, j ∈ l → isLeaf j
    | _ => True
    end.

(** The More sub menu of a menu: the sub menu of its last entry, which
    the builder labels [More...]. *)
Definition moreSubMenuOf (items : list PanelMenuItem) : list PanelMenuItem :=
  match last items with
  | Some (MenuItem f (SubItems ms)) =>
      if bool_decide (text f = "More...") then ms else []
  | _ => []
  end.

(** Some entry of the list carries the label. *)
Definition hasText (ms : list PanelMenuItem) (txt : string) : Prop :=
  ∃ j, j ∈ ms ∧ itemText j = txt.

(** An extension the builder considers: of link type, with a title and a
    description that are not empty. *)
Definition considered (extension : PluginExtension) : Prop :=
  ext_type extension = ExtLink
  ∧ ext_title extension ≠ "" ∧ ext_description extension ≠ "".

(** ** Example inputs *)

Definition exampleWorld (explore : Settled (option string))
    (extensions : list PluginExtension) (links : option (list LinkModel))
    (availability : Settled bool) : World :=
  λ c,
    match c return Response c with
    | CreatePluginExtensionsGetter => 7%nat
    | InvokeGetPluginExtensions _ _ => extensions
    | CreateExtensionSubMenu exts _ _ =>
        (λ x, MenuItem
                {| text := ext_title x; iconClassName := None; shortcut := None;
                   href := None; target := None; tooltip := None;
                   tabindex := None;
                   onClick := Some (ExtensionClicked (ext_id x)) |}
                NoSubMenu) <$> exts
    | GetPanelLinks _ => links
    | TryGetExploreUrlForPanel => explore
    | GetCreateAlertInMenuAvailability _ => availability
    end.

Definition exampleState (plugin : string) (opts : JsObject) : VizPanelState :=
  {| pluginId := plugin;
     title := "CPU";
     options := opts;
     fieldConfig :=
       {| defaults := {[ "unit" := JStr "percent" ]}; overrides := [] |} |}.

Definition examplePanel (plugin : string) (opts : JsObject) (library : bool)
  : VizPanel :=
  {| state := exampleState plugin opts;
     panelId := 4;
     pathId := "panel-4";
     pluginVersion := None;
     queryRunner := None;
     isRepeatCloneOrChildOf := false;
     isLibraryPanel := library |}.

Definition exampleDashboard (embedded canEdit : bool) : DashboardScene :=
  {| uid := "d1";
     dash_title := "Hosts";
     tags := None;
     editable := true;
     isDirty := false;
     editPanel := false;
     viewPanelScene := false;
     meta := {| isEmbedded := embedded; folderUid := None |};
     canEditDashboard := canEdit |}.

Definition exampleInputs (plugin : string) (opts : JsObject)
    (library embedded canEdit access : bool) : Inputs :=
  {| panel := examplePanel plugin opts library;
     dashboard := exampleDashboard embedded canEdit;
     hasAccessToExplore := access;
     location := {| pathname := "/d/d1"; search := "" |} |}.

(** A menu that was never activated. *)
Definition freshStore : Store :=
  {| getPluginExtensions := None; menuItems := [] |}.

Definition exampleApp (st : VizPanelState) (dirty : bool) : App :=
  {| app_panel := st;
     app_panelId := 4;
     app_isDirty := dirty;
     onSaveCompleted := None;
     onSaveError := None;
     app_location := {| pathname := "/d/d1"; search := "?orgId=1" |};
     ruleFormValues := "{}";
     effects := [] |}.

Definition runbook : LinkModel :=
  {| link_title := "Runbook"; link_href := "https://example.org/runbook" |}.

(** A viewer's time series panel with one panel link. *)
Definition linkedWorld : World :=
  exampleWorld (Resolved None) [] (Some [runbook]) (Resolved false).

Definition viewerInputs : Inputs :=
  exampleInputs "timeseries" ∅ false false false false.

(** The menu the builder sets for it. *)
Definition linkedMenu : list PanelMenuItem :=
  [ viewItem viewerInputs; shareItem;
    inspectItem (inspectorEntries viewerInputs);
    moreItem [panelTimeOverrideItem; panelLinksItem [runbook]; getHelpItem] ].

(** An editor's time series panel, nothing supplied by the collaborators. *)
Definition quietWorld : World :=
  exampleWorld (Resolved None) [] None (Resolved false).

Definition editorInputs : Inputs :=
  exampleInputs "timeseries" ∅ false false true false.

Definition editorMenu : list PanelMenuItem :=
  [ viewItem editorInputs; editItem editorInputs; removeItem; shareItem;
    inspectItem (inspectorEntries editorInputs);
    moreItem [duplicateItem; copyItem; panelTimeOverrideItem; getHelpItem] ].

(** A world whose explore URL helper fails. *)
Definition brokenWorld : World :=
  exampleWorld (Rejected "network") [] None (Resolved true).

(** An editor with access to Explore on a library panel. *)
Definition libraryInputs : Inputs :=
  exampleInputs "timeseries" ∅ true false true true.

(** A world in which an alert rule can be created. *)
Definition alertingWorld : World :=
  exampleWorld (Resolved None) [] None (Resolved true).

(** A world that supplies an explore URL. *)
Definition exploringWorld : World :=
  exampleWorld (Resolved (Some "/explore?left=x")) [] None (Resolved false).

(** An embedded dashboard seen by a user with access to Explore. *)
Definition embeddedInputs : Inputs :=
  exampleInputs "timeseries" ∅ false true false true.

(** The URL the alert rule handler navigates to. *)
Definition newAlertRuleUrl (a : App) : Url :=
  RenderUrl "/alerting/new/alerting"
    [("defaults", QStr (ruleFormValues a));
     ("returnTo",
      QStr (String.append (pathname (app_location a)) (search (app_location a))))].

Global Instance considered_dec (extension : PluginExtension) :
  Decision (considered extension).
Proof. unfold considered. apply _. Defined.

(** A pie chart whose legend is shown as a table. *)
Definition pieOptions : JsObject :=
  {[ "legend" := JObj {[ "displayMode" := JStr "table" ]};
     "pieType" := JStr "donut" ]}.

Definition pieInputs : Inputs :=
  exampleInputs "piechart" pieOptions false false true false.

Definition pieMenu : list PanelMenuItem :=
  [ viewItem pieInputs; editItem pieInputs; removeItem; shareItem;
    inspectItem (inspectorEntries pieInputs);
    moreItem [convertToTableItem; duplicateItem; copyItem;
              panelTimeOverrideItem; getHelpItem] ].

Definition exampleExtension (id : string) (ty : PluginExtensionTypes)
    (title description : string) : PluginExtension :=
  {| ext_id := id; ext_type := ty; ext_title := title;
     ext_description := description; ext_pluginId := "acme-app";
     ext_category := None |}.

(** Six registered extensions, four of which the builder considers. *)
Definition sixExtensions : list PluginExtension :=
  [ exampleExtension "a" ExtLink "Open in A" "go to A";
    exampleExtension "b" ExtComponent "Widget" "a component";
    exampleExtension "c" ExtLink "" "no title";
    exampleExtension "d" ExtLink "Open in D" "go to D";
    exampleExtension "e" ExtLink "Open in E" "go to E";
    exampleExtension "f" ExtLink "Open in F" "go to F" ].

Definition extendedWorld : World :=
  exampleWorld (Resolved None) sixExtensions None (Resolved false).

(** A second world: another getter identity, which answers as the getter
    of [extendedWorld] does. *)
Definition otherWorld : World :=
  λ c,
    match c return Response c with
    | CreatePluginExtensionsGetter => 11%nat
    | c' => extendedWorld c'
    end.

(** A store left by earlier activations: the getter is cached and the
    menu holds an old entry. *)
Definition usedStore : Store :=
  {| getPluginExtensions := Some 3%nat; menuItems := [shareItem] |}.

(** The uid a query contributes to [result] in [getDataSources]: the uid
    of its data source, when both are truthy. *)
Definition queryUid (query : DataQuery) : option string :=
  match datasource query with
  | Some ds =>
      match ds_uid ds with
      | Some u => if truthyStr u then Some u else None
      | None => None
      end
  | None => None
  end.

(** The queries [getDataSources] walks over. *)
Definition panelQueries (p : VizPanel) : list DataQuery :=
  match queryRunner p with
  | Some qr => default [] (queries qr)
  | None => []
  end.

Definition exampleQuery (ref : string) (u : option string) : DataQuery :=
  {| refId := ref; datasource := Some {| ds_type := Some "prometheus"; ds_uid := u |} |}.

(** A panel with four queries: two on the same data source, one with an
    empty uid, one on another data source. *)
Definition queriedPanel : VizPanel :=
  {| state := exampleState "timeseries" ∅;
     panelId := 4;
     pathId := "panel-4";
     pluginVersion := Some "11.0.0";
     queryRunner :=
       Some {| queries :=
                 Some [ exampleQuery "A" (Some "prom-1");
                        exampleQuery "B" (Some "");
                        exampleQuery "C" (Some "loki-2");
                        exampleQuery "D" (Some "prom-1");
                        {| refId := "E"; datasource := None |} ];
               timeRange := "now-6h";
               timeZone := None |};
     isRepeatCloneOrChildOf := false;
     isLibraryPanel := false |}.

(** The collaborator calls of a trace, in order. *)
Definition callsOf (tr : list Event) : list Call :=
  omap (λ ev, match ev with Called c => Some c | _ => None end) tr.

Definition isCreateGetterCall (ev : Event) : bool :=
  match ev with
  | Called CreatePluginExtensionsGetter => true
  | _ => false
  end.

(** The menu is opened several times; each activation runs the behaviour
    on the store the previous one left, with the inputs and the
    collaborators of its moment. *)
Fixpoint activations (runs : list (World * Inputs)) (s : Store)
  : Store * list Event :=
  match runs with
  | [] => (s, [])
  | (w, inp) :: runs' =>
      let '(s1, tr1) := panelMenuBehavior w inp s in
      let '(s2, tr2) := activations runs' s1 in
      (s2, tr1 ++ tr2)
  end.

(** A world in which the alert rule availability check fails. *)
Definition failingWorld : World :=
  exampleWorld (Resolved None) [] None (Rejected "forbidden").

(** The edit, remove, duplicate and copy handlers. *)
Definition isEditingAction (h : option Handler) : Prop :=
  h = Some EditClicked ∨ h = Some RemoveClicked ∨ h = Some DuplicateClicked
  ∨ h = Some CopyClicked.

(** A read-only repeat in a dashboard the user can edit. *)
Definition repeatInputs : Inputs :=
  {| panel :=
       {| state := exampleState "timeseries" ∅;
          panelId := 4; pathId := "panel-4"; pluginVersion := None;
          queryRunner := None;
          isRepeatCloneOrChildOf := true;
          isLibraryPanel := false |};
     dashboard := exampleDashboard false true;
     hasAccessToExplore := false;
     location := {| pathname := "/d/d1"; search := "" |} |}.

Definition repeatMenu : list PanelMenuItem :=
  [ viewItem repeatInputs; shareItem;
    inspectItem (inspectorEntries repeatInputs);
    moreItem [panelTimeOverrideItem; getHelpItem] ].

(** The effects a click adds to the log. *)
Definition newEffects (h : Handler) (a : App) : list Effect :=
  drop (length (effects a)) (effects (click h a)).


(** The handlers the builder creates itself. *)
Definition ownHandler (h : Handler) : Prop := ∀ id, h ≠ ExtensionClicked id.

(** The inputs of an activation on the same dashboard once the panel has
    the given state. *)
Definition withPanelState (st : VizPanelState) (inp : Inputs) : Inputs :=
  {| panel :=
       {| state := st;
          panelId := panelId (panel inp);
          pathId := pathId (panel inp);
          pluginVersion := pluginVersion (panel inp);
          queryRunner := queryRunner (panel inp);
          isRepeatCloneOrChildOf := isRepeatCloneOrChildOf (panel inp);
          isLibraryPanel := isLibraryPanel (panel inp) |};
     dashboard := dashboard inp;
     hasAccessToExplore := hasAccessToExplore inp;
     location := location inp |}.

(** The pie chart of [pieInputs] after its convert entry was clicked. *)
Definition convertedInputs : Inputs :=
  withPanelState
    (app_panel (click ConvertToTableClicked
                  (exampleApp (state (panel pieInputs)) false)))
    pieInputs.

Definition convertedMenu : list PanelMenuItem :=
  [ viewItem convertedInputs; editItem convertedInputs; removeItem; shareItem;
    inspectItem (inspectorEntries convertedInputs);
    moreItem [duplicateItem; copyItem; panelTimeOverrideItem; getHelpItem] ].


(** The three extensions of [sixExtensions] the builder hands on. *)
Definition threeLinks : list PluginExtension :=
  [ exampleExtension "a" ExtLink "Open in A" "go to A";
    exampleExtension "d" ExtLink "Open in D" "go to D";
    exampleExtension "e" ExtLink "Open in E" "go to E" ].

(** A registry that holds these three only. *)
Definition threeWorld : World :=
  exampleWorld (Resolved None) threeLinks None (Resolved false).

(** ** Lemmas on the monad and on tables *)

Lemma run_bind {A B : Type} (w : World) (s : Store) (p : Prog A) (f : A → Prog B) :
  run w s (bind p f) =
  match run w s p with
  | (Returned a, s', tr) =>
      let '(o, s'', tr') := run w s' (f a) in (o, s'', tr ++ tr')
  | (Threw err, s', tr) => (Threw err, s', tr)
  end.
Proof.
  revert s. induction p as [a|err|c k IH|k IH|g k IH|items k IH]; intros s; simpl.
  - destruct (run w s (f a)) as [[o s'] tr]. done.
  - done.
  - rewrite IH. destruct (run w s (k (w c))) as [[[a|err] s'] tr]; [|done].
    destruct (run w s' (f a)) as [[o s''] tr']. done.
  - apply IH.
  - apply IH.
  - rewrite IH.
    destruct (run w _ k) as [[[a|err] s'] tr]; [|done].
    destruct (run w s' (f a)) as [[o s''] tr']. done.
Qed.

Lemma selected_app {A : Type} (tb1 tb2 : list (bool * A)) :
  selected (tb1 ++ tb2) = selected tb1 ++ selected tb2.
Proof.
  induction tb1 as [|[c x] tb1 IH]; simpl; [done|].
  destruct c; simpl; by rewrite IH.
Qed.

Lemma elem_of_selected {A : Type} (tb : list (bool * A)) (x : A) :
  x ∈ selected tb ↔ (true, x) ∈ tb.
Proof.
  induction tb as [|[c y] tb IH]; simpl.
  - split; intros H; inversion H.
  - destruct c; rewrite ?elem_of_cons, IH; split.
    + intros [->|H]; [by left|by right].
    + intros [[= ->]|H]; [by left|by right].
    + intros H; by right.
    + intros [[=]|H]; done.
Qed.

Lemma run_getExploreMenuItem (w : World) (s : Store) (inp : Inputs) :
  run w s (getExploreMenuItem inp) = (exploreResult w inp, s, exploreTrace inp).
Proof.
  unfold getExploreMenuItem, exploreResult, exploreTrace.
  destruct (hasAccessToExplore inp); simpl; [|done].
  destruct (w TryGetExploreUrlForPanel) as [u|err]; simpl; [|done].
  destruct (truthyOptStr u); done.
Qed.

Lemma run_setupGetPluginExtensions (w : World) (s : Store) :
  run w s setupGetPluginExtensions =
  (Returned (getterInUse w s), withGetter (getterInUse w s) s, setupCalls s).
Proof.
  unfold setupGetPluginExtensions, getterInUse, withGetter, setupCalls. simpl.
  destruct s as [[g|] m]; done.
Qed.

Lemma top_shape {A : Type} (c1 c2 c3 c4 : bool) (x1 x2 x3 x4 : A) :
  pushIf c4 (pushIf c3 (pushIf c2 (pushIf c1 [] x1) x2) x3) x4
  = selected [(c1, x1); (c2, x2); (c3, x3); (c4, x4)].
Proof. by destruct c1, c2, c3, c4. Qed.

Lemma more_shape {A : Type} (pie leg dup lib ce cr lk al : bool) (x1 x2 x3 x4 x5 x6 x7 x8 : A) :
  let base := if pie then pushIf leg [] x1 else [] in
  let copied := if dup then push (push base x2) x3 else base in
  pushIf al
    (pushIf lk
       (push (if lib then pushIf ce copied x4 else pushIf cr copied x5) x6)
       x7)
    x8
  = selected [(pie && leg, x1); (dup, x2); (dup, x3); (lib && ce, x4);
              (negb lib && cr, x5); (true, x6); (lk, x7); (al, x8)].
Proof. by destruct pie, leg, dup, lib, ce, cr, lk, al. Qed.

Lemma more_nonempty {A : Type} (c1 c2 c3 c4 c5 c7 c8 : bool) (x1 x2 x3 x4 x5 x6 x7 x8 : A) :
  bool_decide
    (0 < length (selected [(c1, x1); (c2, x2); (c3, x3); (c4, x4); (c5, x5);
                           (true, x6); (c7, x7); (c8, x8)]))%nat = true.
Proof. by destruct c1, c2, c3, c4, c5, c7, c8. Qed.

Lemma append_if_nonempty {A : Type} (l ext : list A) :
  (if bool_decide (0 < length ext)%nat then l ++ ext else l) = l ++ ext.
Proof. destruct ext; simpl; [by rewrite app_nil_r|done]. Qed.

(** One activation, case by case: the explore step fails; the dashboard
    is embedded; the availability check fails; the menu is built. *)
Lemma panelMenuBehavior_eq (w : World) (inp : Inputs) (s : Store) :
  panelMenuBehavior w inp s =
  match exploreResult w inp with
  | Threw err => (s, exploreTrace inp ++ [caught err])
  | Returned e =>
      if isEmbedded (meta (dashboard inp)) then
        match e with
        | Some x => (withMenu [x] s, exploreTrace inp ++ [SetState [x]])
        | None => (s, exploreTrace inp)
        end
      else
        let s1 := withGetter (getterInUse w s) s in
        match w (GetCreateAlertInMenuAvailability (alertArgs inp)) with
        | Rejected err =>
            (s1, exploreTrace inp ++ builderCalls w inp s ++ [caught err])
        | Resolved c =>
            (withMenu (builtMenu w inp s e c) s1,
             exploreTrace inp ++ builderCalls w inp s
             ++ [SetState (builtMenu w inp s e c)])
        end
  end.
Proof.
  unfold panelMenuBehavior, asyncFunc.
  change (mbind ?f ?p) with (bind p f).
  rewrite run_bind, run_getExploreMenuItem.
  destruct (exploreResult w inp) as [e|err]; [|done].
  destruct (isEmbedded (meta (dashboard inp))).
  { destruct e; simpl; rewrite ?app_nil_r; done. }
  cbv zeta.
  change (mbind ?f ?p) with (bind p f).
  rewrite run_bind, run_setupGetPluginExtensions.
  cbn -[push pushIf t selected].
  destruct (w (GetCreateAlertInMenuAvailability (alertArgs inp))) as [c|err];
    cbn -[push pushIf t selected].
  2: { unfold builderCalls, extensionsOf, caught. by rewrite <- !app_assoc. }
  rewrite top_shape.
  rewrite (more_shape _ _ _ _ _ _ _ _ convertToTableItem).
  rewrite append_if_nonempty, more_nonempty.
  unfold builtMenu, builderCalls, extensionSubMenuOf, linksOf, extensionsOf,
    topTable, moreTable, legendIsTable, inspectorEntries, withMenu, withGetter, t.
  cbn -[selected].
  rewrite <- !app_assoc.
  destruct e; reflexivity.
Qed.

(** ** Reading the trace of an activation *)

Lemma exploreTrace_called (inp : Inputs) (ev : Event) :
  ev ∈ exploreTrace inp → ev = Called TryGetExploreUrlForPanel.
Proof.
  unfold exploreTrace. destruct (hasAccessToExplore inp).
  - by intros ->%list_elem_of_singleton.
  - by intros ?%elem_of_nil.
Qed.

Lemma builderCalls_called (w : World) (inp : Inputs) (s : Store) (ev : Event) :
  ev ∈ builderCalls w inp s → ∃ c, ev = Called c ∧ c ≠ TryGetExploreUrlForPanel.
Proof.
  unfold builderCalls, setupCalls. rewrite elem_of_app.
  intros [H|H].
  - destruct (getPluginExtensions s); [by apply elem_of_nil in H|].
    apply list_elem_of_singleton in H as ->. by eexists.
  - repeat (apply elem_of_cons in H as [->|H]; [by eexists|]).
    by apply elem_of_nil in H.
Qed.

Lemma exploreResult_some (w : World) (inp : Inputs) (x : PanelMenuItem) :
  exploreResult w inp = Returned (Some x) ↔
  hasAccessToExplore inp = true
  ∧ ∃ u, w TryGetExploreUrlForPanel = Resolved (Some u) ∧ u ≠ ""
         ∧ x = exploreItem u.
Proof.
  unfold exploreResult. destruct (hasAccessToExplore inp).
  - destruct (w TryGetExploreUrlForPanel) as [[u|]|err]; simpl.
    + unfold truthyStr. case_bool_decide as Hu; simpl.
      * split; [done|]. intros [_ (u' & [= <-] & ? & _)]. done.
      * split.
        -- intros [= <-]. split; [done|]. by exists u.
        -- intros [_ (u' & [= <-] & _ & ->)]. done.
    + split; [done|]. by intros [_ (u' & ? & _)].
    + split; [done|]. by intros [_ (u' & ? & _)].
  - split; [done|]. by intros [? _].
Qed.

(** The menus an activation sets: the single explore entry of an
    embedded dashboard, or the built menu. *)
Lemma setState_inv (w : World) (inp : Inputs) (s : Store)
    (items : list PanelMenuItem) :
  SetState items ∈ (panelMenuBehavior w inp s).2 →
  (isEmbedded (meta (dashboard inp)) = true
   ∧ ∃ x, exploreResult w inp = Returned (Some x) ∧ items = [x])
  ∨ (isEmbedded (meta (dashboard inp)) = false
     ∧ ∃ e c, exploreResult w inp = Returned e
              ∧ w (GetCreateAlertInMenuAvailability (alertArgs inp)) = Resolved c
              ∧ items = builtMenu w inp s e c).
Proof.
  rewrite panelMenuBehavior_eq.
  destruct (exploreResult w inp) as [e|err]; simpl.
  2: { rewrite elem_of_app, list_elem_of_singleton.
       intros [H%exploreTrace_called|H]; done. }
  destruct (isEmbedded (meta (dashboard inp))).
  - destruct e as [x|]; simpl.
    + rewrite elem_of_app, list_elem_of_singleton.
      intros [H%exploreTrace_called|[= ->]]; [done|].
      left. split; [done|]. by exists x.
    + by intros H%exploreTrace_called.
  - destruct (w (GetCreateAlertInMenuAvailability (alertArgs inp))) as [c|err];
      simpl; rewrite !elem_of_app, list_elem_of_singleton.
    + intros [H%exploreTrace_called|[H%builderCalls_called|[= ->]]];
        [done|by destruct H as (? & ? & _)|].
      right. split; [done|]. by exists e, c.
    + intros [H%exploreTrace_called|[H%builderCalls_called|H]];
        [done|by destruct H as (? & ? & _)|done].
Qed.

Ltac elem_of_list := repeat first [apply list_elem_of_here | apply list_elem_of_further].

(** ** C1: nesting depth *)

(** C1 as stated fails: with one panel link, the panel links entry sits
    in the More sub menu and carries a menu of its own. *)
Lemma C1_counterexample :
  menusSet (panelMenuBehavior linkedWorld viewerInputs freshStore).2 = [linkedMenu]
  ∧ ¬ twoLevel linkedMenu.
Proof.
  split; [by vm_compute|].
  intros H.
  specialize (H (moreItem [panelTimeOverrideItem; panelLinksItem [runbook]; getHelpItem])).
  simpl in H.
  assert (isLeaf (panelLinksItem [runbook])) as Hleaf.
  { apply H; unfold linkedMenu; elem_of_list. }
  discriminate Hleaf.
Qed.

(** C1 (amended).  In every menu the builder sets, each top-level entry
    that is not an entry returned by the extension sub menu helper
    carries at most one sub menu, and the entries of that sub menu carry
    no sub menu of their own, with one exception: the panel links entry
    of the More sub menu carries the panel links menu.  So the builder's
    own entries reach three levels, not two. *)
Theorem C1_menu_nesting (w : World) (inp : Inputs) (s : Store)
    (items : list PanelMenuItem) (i : PanelMenuItem) :
  SetState items ∈ (panelMenuBehavior w inp s).2 →
  i ∈ items →
  i ∈ extensionSubMenuOf w inp s
  ∨ match itemSubMenu i with
    | SubItems l =>
        ∀ j, j ∈ l →
          isLeaf j
          ∨ (itemText i = "More..."
             ∧ j = panelLinksItem (linksOf w inp)
             ∧ itemSubMenu j = SubLinksMenu (linksOf w inp))
    | _ => True
    end.
Proof.
  intros [(_ & x & Hx & ->)|(_ & e & c & He & _ & ->)]%setState_inv Hi.
  - apply list_elem_of_singleton in Hi as ->.
    apply exploreResult_some in Hx as (_ & u & _ & _ & ->). by right.
  - unfold builtMenu in Hi.
    rewrite !elem_of_app in Hi.
    destruct Hi as [Hi|[Hi|[Hi|[Hi|[Hi|Hi]]]]].
    + right. apply elem_of_selected in Hi. unfold topTable in Hi.
      repeat (apply elem_of_cons in Hi as [Heq|Hi]; [by simplify_eq|]).
      by apply elem_of_nil in Hi.
    + apply list_elem_of_singleton in Hi as ->. by right.
    + right. destruct e as [x|]; simpl in Hi; [|by apply elem_of_nil in Hi].
      apply list_elem_of_singleton in Hi as ->.
      apply exploreResult_some in He as (_ & u & _ & _ & ->). done.
    + apply list_elem_of_singleton in Hi as ->. right. simpl.
      intros j Hj. left. unfold inspectorEntries in Hj.
      repeat (apply elem_of_cons in Hj as [->|Hj]; [done|]).
      by apply elem_of_nil in Hj.
    + by left.
    + apply list_elem_of_singleton in Hi as ->. right.
      cbn [itemSubMenu moreItem].
      intros j [Hj|Hj]%elem_of_app.
      * apply elem_of_selected in Hj. unfold moreTable in Hj.
        repeat (apply elem_of_cons in Hj as [Heq|Hj];
          [simplify_eq; by (left + right)|]).
        by apply elem_of_nil in Hj.
      * apply list_elem_of_singleton in Hj as ->. by left.
Qed.

Lemma C1_menu_nesting_witness :
  SetState linkedMenu ∈ (panelMenuBehavior linkedWorld viewerInputs freshStore).2
  ∧ (moreItem [panelTimeOverrideItem; panelLinksItem [runbook]; getHelpItem]
       ∈ extensionSubMenuOf linkedWorld viewerInputs freshStore
     ∨ ∀ j, j ∈ [panelTimeOverrideItem; panelLinksItem [runbook]; getHelpItem] →
         isLeaf j
         ∨ ("More..." = "More..."
            ∧ j = panelLinksItem [runbook]
            ∧ itemSubMenu j = SubLinksMenu [runbook])).
Proof.
  assert (SetState linkedMenu
            ∈ (panelMenuBehavior linkedWorld viewerInputs freshStore).2) as Hset.
  { vm_compute. elem_of_list. }
  split; [exact Hset|].
  apply (C1_menu_nesting linkedWorld viewerInputs freshStore linkedMenu
           (moreItem [panelTimeOverrideItem; panelLinksItem [runbook]; getHelpItem])
           Hset).
  unfold linkedMenu. elem_of_list.
Defined.

(** ** C2: labels *)

Lemma entriesOf_subItems (f : ItemFields) (l : list PanelMenuItem) :
  entriesOf (MenuItem f (SubItems l)) = MenuItem f (SubItems l) :: allEntries l.
Proof.
  reflexivity.
Qed.

Lemma allEntries_app (l1 l2 : list PanelMenuItem) :
  allEntries (l1 ++ l2) = allEntries l1 ++ allEntries l2.
Proof. apply bind_app. Qed.

Lemma allEntries_leaves (l : list PanelMenuItem) (e : PanelMenuItem) :
  (∀ i, i ∈ l → isLeaf i) → e ∈ allEntries l → e ∈ l.
Proof.
  intros Hl (i & He & Hi)%list_elem_of_bind.
  specialize (Hl i Hi). destruct i as [f sm]. unfold isLeaf in Hl. simpl in Hl.
  subst sm. simpl in He. by apply list_elem_of_singleton in He as ->.
Qed.

Lemma allEntries_leaf (x e : PanelMenuItem) :
  isLeaf x → e ∈ allEntries [x] → e = x.
Proof.
  intros Hx He. apply (allEntries_leaves [x]) in He.
  - by apply list_elem_of_singleton in He.
  - by intros i ->%list_elem_of_singleton.
Qed.

Lemma topTable_leaf (inp : Inputs) (i : PanelMenuItem) :
  i ∈ selected (topTable inp) → isLeaf i.
Proof.
  intros Hi%elem_of_selected. unfold topTable in Hi.
  repeat (apply elem_of_cons in Hi as [Heq|Hi]; [by simplify_eq|]).
  by apply elem_of_nil in Hi.
Qed.

(** The labels of the top entries: all but the remove entry are set. *)
Lemma topTable_text (inp : Inputs) (i : PanelMenuItem) :
  i ∈ selected (topTable inp) → itemText i ≠ "" ∨ i = removeItem.
Proof.
  intros Hi%elem_of_selected. unfold topTable in Hi.
  repeat (apply elem_of_cons in Hi as [Heq|Hi];
          [simplify_eq; by (left + right)|]).
  by apply elem_of_nil in Hi.
Qed.

Lemma moreTable_text (inp : Inputs) (links : list LinkModel) (c : bool)
    (i : PanelMenuItem) :
  i ∈ selected (moreTable inp links c) →
  itemText i ≠ "" ∧ allEntries [i] = [i].
Proof.
  intros Hi%elem_of_selected. unfold moreTable in Hi.
  repeat (apply elem_of_cons in Hi as [Heq|Hi]; [by simplify_eq|]).
  by apply elem_of_nil in Hi.
Qed.

(** C2 as stated fails: an editor gets the remove entry, whose text is
    empty. *)
Lemma C2_counterexample :
  menusSet (panelMenuBehavior quietWorld editorInputs freshStore).2 = [editorMenu]
  ∧ removeItem ∈ allEntries editorMenu
  ∧ itemText removeItem = "".
Proof.
  split; [by vm_compute|]. split; [|done].
  vm_compute. elem_of_list.
Qed.

(** C2 (amended).  Every entry, at every level, of a menu the builder
    sets carries a label that is not empty, except the remove entry: a
    top-level entry with an empty text, the icon [times] and the tooltip
    [Remove this panel].  Entries returned by the extension sub menu
    helper are included as the helper labels them. *)
Theorem C2_labels (w : World) (inp : Inputs) (s : Store)
    (items : list PanelMenuItem) (e : PanelMenuItem) :
  SetState items ∈ (panelMenuBehavior w inp s).2 →
  e ∈ allEntries items →
  itemText e ≠ ""
  ∨ (e = removeItem ∧ e ∈ items
     ∧ iconClassName (itemFields e) = Some "times"
     ∧ tooltip (itemFields e) = Some "Remove this panel")
  ∨ e ∈ allEntries (extensionSubMenuOf w inp s).
Proof.
  intros [(_ & x & Hx & ->)|(_ & ex & c & Hex & _ & ->)]%setState_inv He.
  - apply exploreResult_some in Hx as (_ & u & _ & _ & ->).
    left. by apply allEntries_leaf in He as ->.
  - unfold builtMenu in He |- *. rewrite !allEntries_app in He.
    rewrite !elem_of_app in He.
    destruct He as [He|[He|[He|[He|[He|He]]]]].
    + apply allEntries_leaves in He; [|apply topTable_leaf].
      destruct (topTable_text inp e He) as [?| ->]; [by left|].
      right; left. split_and!; [done| |done|done].
      rewrite elem_of_app. by left.
    + left. by apply allEntries_leaf in He as ->.
    + left. destruct ex as [x|]; [|by apply elem_of_nil in He].
      apply exploreResult_some in Hex as (_ & u & _ & _ & ->).
      by apply allEntries_leaf in He as ->.
    + left. unfold allEntries in He. simpl in He.
      repeat (apply elem_of_cons in He as [->|He]; [done|]).
      by apply elem_of_nil in He.
    + by right; right.
    + left. unfold allEntries in He. cbn [mbind list_bind] in He.
      rewrite app_nil_r in He. unfold moreItem in He.
      rewrite entriesOf_subItems, elem_of_cons, allEntries_app, elem_of_app in He.
      destruct He as [->|[He|He]]; [done| |].
      * apply list_elem_of_bind in He as (j & He & Hj).
        apply moreTable_text in Hj as [Hj Hj'].
        unfold allEntries in Hj'. simpl in Hj'. rewrite app_nil_r in Hj'.
        rewrite Hj' in He. by apply list_elem_of_singleton in He as ->.
      * by apply allEntries_leaf in He as ->.
Qed.

Lemma C2_labels_witness :
  SetState editorMenu ∈ (panelMenuBehavior quietWorld editorInputs freshStore).2
  ∧ removeItem ∈ allEntries editorMenu
  ∧ (itemText removeItem ≠ ""
     ∨ (removeItem = removeItem ∧ removeItem ∈ editorMenu
        ∧ iconClassName (itemFields removeItem) = Some "times"
        ∧ tooltip (itemFields removeItem) = Some "Remove this panel")
     ∨ removeItem ∈ allEntries (extensionSubMenuOf quietWorld editorInputs freshStore)).
Proof.
  assert (SetState editorMenu
            ∈ (panelMenuBehavior quietWorld editorInputs freshStore).2) as Hset.
  { vm_compute. elem_of_list. }
  assert (removeItem ∈ allEntries editorMenu) as Hin.
  { vm_compute. elem_of_list. }
  split; [exact Hset|]. split; [exact Hin|].
  exact (C2_labels quietWorld editorInputs freshStore editorMenu removeItem Hset Hin).
Defined.

(** ** Activations that complete *)

Lemma count_app (f : Event → bool) (tr1 tr2 : list Event) :
  count f (tr1 ++ tr2) = (count f tr1 + count f tr2)%nat.
Proof. induction tr1 as [|ev tr1 IH]; simpl; [done|]. rewrite IH. lia. Qed.

Lemma count_exploreTrace (inp : Inputs) :
  count isError (exploreTrace inp) = 0%nat
  ∧ count isAvailabilityCall (exploreTrace inp) = 0%nat
  ∧ count isExploreCall (exploreTrace inp)
    = (if hasAccessToExplore inp then 1 else 0)%nat.
Proof. unfold exploreTrace. by destruct (hasAccessToExplore inp). Qed.

Lemma count_builderCalls (w : World) (inp : Inputs) (s : Store) :
  count isError (builderCalls w inp s) = 0%nat
  ∧ count isAvailabilityCall (builderCalls w inp s) = 1%nat
  ∧ count isExploreCall (builderCalls w inp s) = 0%nat.
Proof.
  unfold builderCalls, setupCalls. by destruct (getPluginExtensions s).
Qed.

(** A non-embedded activation completes exactly when neither awaited
    call is rejected; its menu is then the built menu. *)
Lemma completed_inv (w : World) (inp : Inputs) (s : Store) :
  isEmbedded (meta (dashboard inp)) = false →
  completed (panelMenuBehavior w inp s).2 →
  ∃ e c,
    exploreResult w inp = Returned e
    ∧ w (GetCreateAlertInMenuAvailability (alertArgs inp)) = Resolved c
    ∧ panelMenuBehavior w inp s =
      (withMenu (builtMenu w inp s e c) (withGetter (getterInUse w s) s),
       exploreTrace inp ++ builderCalls w inp s
       ++ [SetState (builtMenu w inp s e c)]).
Proof.
  intros Hemb. unfold completed. rewrite panelMenuBehavior_eq, Hemb.
  destruct (exploreResult w inp) as [e|err].
  - destruct (w (GetCreateAlertInMenuAvailability (alertArgs inp))) as [c|err].
    + intros _. by exists e, c.
    + simpl. rewrite !count_app. simpl. lia.
  - simpl. rewrite count_app. simpl. lia.
Qed.

Lemma moreSubMenuOf_builtMenu (w : World) (inp : Inputs) (s : Store)
    (e : option PanelMenuItem) (c : bool) :
  moreSubMenuOf (builtMenu w inp s e c)
  = selected (moreTable inp (linksOf w inp) c) ++ [getHelpItem].
Proof.
  unfold builtMenu, moreSubMenuOf.
  rewrite !(assoc_L (++)), last_snoc. done.
Qed.

Lemma hasText_more (tb : list (bool * PanelMenuItem)) (txt : string) :
  hasText (selected tb ++ [getHelpItem]) txt ↔
  (∃ x, (true, x) ∈ tb ∧ itemText x = txt) ∨ txt = "Get help".
Proof.
  unfold hasText. split.
  - intros (j & [Hj|Hj]%elem_of_app & Htxt).
    + left. exists j. by rewrite <- elem_of_selected.
    + right. apply list_elem_of_singleton in Hj as ->. done.
  - intros [(x & Hx & Htxt)| ->].
    + exists x. rewrite elem_of_app, elem_of_selected. by split; [left|].
    + exists getHelpItem. rewrite elem_of_app, list_elem_of_singleton.
      by split; [right|].
Qed.

(** Reading a table row by row. *)
Ltac table_rows H :=
  repeat (apply elem_of_cons in H as [H|H]; [simplify_eq|]);
  try (by apply elem_of_nil in H).

(** ** C3: library panel entries *)

Lemma unlink_in_more (inp : Inputs) (links : list LinkModel) (c : bool) :
  hasText (selected (moreTable inp links c) ++ [getHelpItem]) "Unlink library panel"
  ↔ isLibraryPanel (panel inp) = true ∧ canEditDashboard (dashboard inp) = true.
Proof.
  rewrite hasText_more. split.
  - intros [(x & Hx & Htxt)|?]; [|done].
    unfold moreTable in Hx. table_rows Hx; try done.
    by apply andb_true_iff.
  - intros [Hlib Hedit]. left. exists (unlinkItem "Unlink library panel").
    split; [|done]. unfold moreTable. rewrite Hlib, Hedit. simpl. elem_of_list.
Qed.

Lemma create_in_more (inp : Inputs) (links : list LinkModel) (c : bool) :
  hasText (selected (moreTable inp links c) ++ [getHelpItem]) "Create library panel"
  ↔ isLibraryPanel (panel inp) = false
    ∧ hasAccessToExplore inp = true
    ∧ pluginId (state (panel inp)) ≠ "timeseries".
Proof.
  rewrite hasText_more. split.
  - intros [(x & Hx & Htxt)|?]; [|done].
    unfold moreTable in Hx. table_rows Hx; try done.
    match goal with H : true = _ |- _ => symmetry in H; rename H into Hc end.
    apply andb_true_iff in Hc as [Hlib [Hacc Hts]%andb_true_iff].
    apply negb_true_iff in Hlib, Hts. apply bool_decide_eq_false in Hts. done.
  - intros (Hlib & Hacc & Hts). left. exists createLibraryPanelItem.
    split; [|done]. unfold moreTable.
    rewrite Hlib, Hacc, (bool_decide_eq_false_2 _ Hts). simpl. elem_of_list.
Qed.

(** C3 as stated fails for an activation that does not complete: the
    explore URL helper rejects, no menu is set, and the unlink entry does
    not appear although the panel is a library panel the user can edit. *)
Lemma C3_counterexample :
  isEmbedded (meta (dashboard libraryInputs)) = false
  ∧ isLibraryPanel (panel libraryInputs) = true
  ∧ canEditDashboard (dashboard libraryInputs) = true
  ∧ panelMenuBehavior brokenWorld libraryInputs freshStore
    = (freshStore, [Called TryGetExploreUrlForPanel; caught "network"])
  ∧ ¬ hasText
        (moreSubMenuOf
           (menuItems (panelMenuBehavior brokenWorld libraryInputs freshStore).1))
        "Unlink library panel".
Proof.
  split_and!; try done.
  intros (j & Hj & _). vm_compute in Hj. by apply elem_of_nil in Hj.
Qed.

(** C3 (amended).  For every non-embedded menu activation that completes
    without error: the unlink entry appears in the More sub menu iff the
    panel is a library panel and the user can edit the dashboard; the
    create entry appears iff the panel is not a library panel, the user
    has access to Explore and the plugin id is not [timeseries]; the two
    never appear together. *)
Theorem C3_library_entries (w : World) (inp : Inputs) (s : Store) :
  isEmbedded (meta (dashboard inp)) = false →
  completed (panelMenuBehavior w inp s).2 →
  let more := moreSubMenuOf (menuItems (panelMenuBehavior w inp s).1) in
  (hasText more "Unlink library panel"
   ↔ isLibraryPanel (panel inp) = true ∧ canEditDashboard (dashboard inp) = true)
  ∧ (hasText more "Create library panel"
     ↔ isLibraryPanel (panel inp) = false
       ∧ hasAccessToExplore inp = true
       ∧ pluginId (state (panel inp)) ≠ "timeseries")
  ∧ ¬ (hasText more "Unlink library panel" ∧ hasText more "Create library panel").
Proof.
  intros Hemb Hdone more. subst more.
  destruct (completed_inv w inp s Hemb Hdone) as (e & c & _ & _ & ->).
  cbn [fst withMenu menuItems]. rewrite moreSubMenuOf_builtMenu.
  split_and!.
  - apply unlink_in_more.
  - apply create_in_more.
  - rewrite unlink_in_more, create_in_more.
    intros [[Hlib _] [Hlib' _]]. congruence.
Qed.

Lemma C3_library_entries_witness :
  isEmbedded (meta (dashboard libraryInputs)) = false
  ∧ completed (panelMenuBehavior quietWorld libraryInputs freshStore).2
  ∧ (hasText
       (moreSubMenuOf
          (menuItems (panelMenuBehavior quietWorld libraryInputs freshStore).1))
       "Unlink library panel"
     ↔ isLibraryPanel (panel libraryInputs) = true
       ∧ canEditDashboard (dashboard libraryInputs) = true).
Proof.
  assert (completed (panelMenuBehavior quietWorld libraryInputs freshStore).2)
    as Hdone by (vm_compute; reflexivity).
  split; [reflexivity|]. split; [exact Hdone|].
  exact (proj1 (C3_library_entries quietWorld libraryInputs freshStore
                  eq_refl Hdone)).
Defined.

(** ** C4: share and inspect *)

Lemma menusSet_app (tr1 tr2 : list Event) :
  menusSet (tr1 ++ tr2) = menusSet tr1 ++ menusSet tr2.
Proof. apply omap_app. Qed.

Lemma menusSet_exploreTrace (inp : Inputs) : menusSet (exploreTrace inp) = [].
Proof. unfold exploreTrace. by destruct (hasAccessToExplore inp). Qed.

Lemma menusSet_builderCalls (w : World) (inp : Inputs) (s : Store) :
  menusSet (builderCalls w inp s) = [].
Proof. unfold builderCalls, setupCalls. by destruct (getPluginExtensions s). Qed.

(** C4.  A non-embedded activation that completes without error sets a
    menu that contains the share entry and, after it, the inspect entry,
    whatever the flags; the sub menu of the inspect entry is Data, Query,
    Panel JSON in this order. *)
Theorem C4_share_inspect (w : World) (inp : Inputs) (s : Store) :
  isEmbedded (meta (dashboard inp)) = false →
  completed (panelMenuBehavior w inp s).2 →
  ∃ pre mid post share inspect sub,
    menuItems (panelMenuBehavior w inp s).1
      = pre ++ share :: mid ++ inspect :: post
    ∧ menusSet (panelMenuBehavior w inp s).2 = [pre ++ share :: mid ++ inspect :: post]
    ∧ itemText share = "Share"
    ∧ itemText inspect = "Inspect"
    ∧ itemSubMenu inspect = SubItems sub
    ∧ itemText <$> sub = ["Data"; "Query"; "Panel JSON"].
Proof.
  intros Hemb Hdone.
  destruct (completed_inv w inp s Hemb Hdone) as (e & c & _ & _ & ->).
  exists (selected (topTable inp)), (option_list e),
    (extensionSubMenuOf w inp s
     ++ [moreItem (selected (moreTable inp (linksOf w inp) c) ++ [getHelpItem])]),
    shareItem, (inspectItem (inspectorEntries inp)), (inspectorEntries inp).
  split_and!; try done.
  cbn [snd].
  by rewrite !menusSet_app, menusSet_exploreTrace, menusSet_builderCalls.
Qed.

Lemma C4_share_inspect_witness :
  isEmbedded (meta (dashboard editorInputs)) = false
  ∧ completed (panelMenuBehavior quietWorld editorInputs freshStore).2
  ∧ ∃ pre mid post share inspect sub,
      menuItems (panelMenuBehavior quietWorld editorInputs freshStore).1
        = pre ++ share :: mid ++ inspect :: post
      ∧ menusSet (panelMenuBehavior quietWorld editorInputs freshStore).2
        = [pre ++ share :: mid ++ inspect :: post]
      ∧ itemText share = "Share"
      ∧ itemText inspect = "Inspect"
      ∧ itemSubMenu inspect = SubItems sub
      ∧ itemText <$> sub = ["Data"; "Query"; "Panel JSON"].
Proof.
  assert (completed (panelMenuBehavior quietWorld editorInputs freshStore).2)
    as Hdone by (vm_compute; reflexivity).
  split; [reflexivity|]. split; [exact Hdone|].
  exact (C4_share_inspect quietWorld editorInputs freshStore eq_refl Hdone).
Defined.

(** ** C5: the alert rule entry *)

(** The availability check is only reached on a non-embedded dashboard
    after the explore step returned, and with the arguments built from
    the inputs. *)
Lemma availability_called_inv (w : World) (inp : Inputs) (s : Store)
    (args : AlertArgs) :
  Called (GetCreateAlertInMenuAvailability args) ∈ (panelMenuBehavior w inp s).2 →
  args = alertArgs inp
  ∧ isEmbedded (meta (dashboard inp)) = false
  ∧ ∃ e, exploreResult w inp = Returned e.
Proof.
  assert (∀ ev, ev ∈ builderCalls w inp s →
            ev = Called (GetCreateAlertInMenuAvailability args) →
            args = alertArgs inp) as Hcalls.
  { unfold builderCalls, setupCalls. intros ev [H|H]%elem_of_app Heq; subst ev.
    - destruct (getPluginExtensions s); [by apply elem_of_nil in H|].
      by apply list_elem_of_singleton in H.
    - repeat (apply elem_of_cons in H as [H|H]; [by simplify_eq|]).
      by apply elem_of_nil in H. }
  rewrite panelMenuBehavior_eq.
  destruct (exploreResult w inp) as [e|err]; simpl.
  2: { rewrite elem_of_app, list_elem_of_singleton.
       intros [H%exploreTrace_called|H]; done. }
  destruct (isEmbedded (meta (dashboard inp))).
  - destruct e as [x|]; simpl.
    + rewrite elem_of_app, list_elem_of_singleton.
      intros [H%exploreTrace_called|H]; done.
    + by intros H%exploreTrace_called.
  - destruct (w (GetCreateAlertInMenuAvailability (alertArgs inp))) as [c|err];
      simpl; rewrite !elem_of_app, list_elem_of_singleton;
      (intros [H%exploreTrace_called|[H|H]]; [done| |done]);
      (split; [by eapply Hcalls|split; [done|by exists e]]).
Qed.

(** C5.  When the availability check reports that an alert rule can be
    created and the panel is not a read-only repeat, the More sub menu
    of the menu holds the alert rule entry.  Its handler, on a dirty
    dashboard, registers [onSuccess] and [onError] as the save callbacks
    and triggers a save without navigating; the save's success then navigates to the new alert rule
    URL, its failure dispatches the [Panel not saved] error notification
    and does not navigate.  On a clean dashboard the handler navigates at
    once and triggers no save. *)
Theorem C5_new_alert_rule (w : World) (inp : Inputs) (s : Store)
    (args : AlertArgs) :
  Called (GetCreateAlertInMenuAvailability args) ∈ (panelMenuBehavior w inp s).2 →
  w (GetCreateAlertInMenuAvailability args) = Resolved true →
  isRepeatCloneOrChildOf (panel inp) = false →
  (∃ e, e ∈ moreSubMenuOf (menuItems (panelMenuBehavior w inp s).1)
        ∧ itemText e = "New alert rule"
        ∧ onClick (itemFields e) = Some NewAlertRuleClicked)
  ∧ ∀ a : App,
      let clicked := click NewAlertRuleClicked a in
      let tracked :=
        effects a ++ [PanelActionClicked "create-alert-rule" (app_panelId a) "panel"] in
      (app_isDirty a = true →
         effects clicked = tracked ++ [SaveAndUpdate]
         ∧ onSaveCompleted clicked = Some OnSuccess
         ∧ onSaveError clicked = Some OnError
         ∧ effects (saveSettled SaveSucceeded clicked)
           = tracked ++ [SaveAndUpdate; LocationPush (newAlertRuleUrl a)]
         ∧ ∀ error,
             effects (saveSettled (SaveFailed error) clicked)
             = tracked ++ [SaveAndUpdate;
                           Dispatch (createErrorNotification "Panel not saved" error)])
      ∧ (app_isDirty a = false →
           effects clicked = tracked ++ [LocationPush (newAlertRuleUrl a)]).
Proof.
  intros Hcall Hyes Hrepeat. split.
  - apply availability_called_inv in Hcall as (-> & Hemb & e & He).
    rewrite panelMenuBehavior_eq, He, Hemb, Hyes.
    cbn [fst withMenu menuItems]. rewrite moreSubMenuOf_builtMenu.
    exists newAlertRuleItem. split; [|done].
    rewrite elem_of_app, elem_of_selected. left.
    unfold moreTable. rewrite Hrepeat. simpl. elem_of_list.
  - intros a clicked tracked. subst clicked tracked. split.
    + intros Hdirty. unfold click. cbn [emit app_isDirty]. rewrite Hdirty.
      split_and!.
      * done.
      * done.
      * done.
      * simpl. by rewrite <- !app_assoc.
      * intros error. simpl. by rewrite <- !app_assoc.
    + intros Hclean. unfold click. cbn [emit app_isDirty]. rewrite Hclean.
      simpl. by rewrite <- !app_assoc.
Qed.

Lemma C5_new_alert_rule_witness :
  Called (GetCreateAlertInMenuAvailability (alertArgs editorInputs))
    ∈ (panelMenuBehavior alertingWorld editorInputs freshStore).2
  ∧ (∃ e, e ∈ moreSubMenuOf
                (menuItems (panelMenuBehavior alertingWorld editorInputs freshStore).1)
          ∧ itemText e = "New alert rule"
          ∧ onClick (itemFields e) = Some NewAlertRuleClicked)
  ∧ effects (saveSettled (SaveFailed "conflict")
               (click NewAlertRuleClicked
                  (exampleApp (exampleState "timeseries" ∅) true)))
    = [PanelActionClicked "create-alert-rule" 4 "panel"; SaveAndUpdate;
       Dispatch (createErrorNotification "Panel not saved" "conflict")].
Proof.
  assert (Called (GetCreateAlertInMenuAvailability (alertArgs editorInputs))
            ∈ (panelMenuBehavior alertingWorld editorInputs freshStore).2) as Hcall.
  { vm_compute. elem_of_list. }
  pose proof (C5_new_alert_rule alertingWorld editorInputs freshStore
                (alertArgs editorInputs) Hcall eq_refl eq_refl) as [Hentry Hclick].
  split; [exact Hcall|]. split; [exact Hentry|].
  destruct (proj1 (Hclick (exampleApp (exampleState "timeseries" ∅) true)) eq_refl)
    as (_ & _ & _ & _ & Hfailed).
  exact (Hfailed "conflict").
Defined.

(** ** C6: embedded dashboards *)

(** C6.  On an embedded dashboard, when the user has access to Explore
    and an explore URL is obtained, the menu state becomes the single
    explore entry; otherwise the store is left as it was and no menu is
    set.  Every entry of a menu set on an embedded dashboard is the
    explore entry. *)
Theorem C6_embedded (w : World) (inp : Inputs) (s : Store) :
  isEmbedded (meta (dashboard inp)) = true →
  (∀ u, hasAccessToExplore inp = true →
        w TryGetExploreUrlForPanel = Resolved (Some u) → u ≠ "" →
        (panelMenuBehavior w inp s).1 = withMenu [exploreItem u] s
        ∧ menusSet (panelMenuBehavior w inp s).2 = [[exploreItem u]])
  ∧ (¬ (hasAccessToExplore inp = true
        ∧ ∃ u, w TryGetExploreUrlForPanel = Resolved (Some u) ∧ u ≠ "") →
     (panelMenuBehavior w inp s).1 = s
     ∧ menusSet (panelMenuBehavior w inp s).2 = [])
  ∧ (∀ items e, SetState items ∈ (panelMenuBehavior w inp s).2 →
        e ∈ allEntries items →
        itemText e = "Explore" ∧ items = [e]).
Proof.
  intros Hemb. split_and!.
  - intros u Hacc Hu Hne.
    assert (exploreResult w inp = Returned (Some (exploreItem u))) as He.
    { apply exploreResult_some. split; [done|]. by exists u. }
    rewrite panelMenuBehavior_eq, He, Hemb. cbn [fst snd]. split; [done|].
    by rewrite menusSet_app, menusSet_exploreTrace.
  - intros Hnot. rewrite panelMenuBehavior_eq, Hemb.
    destruct (exploreResult w inp) as [[x|]|err] eqn:He.
    + destruct Hnot. apply exploreResult_some in He as (? & u & ? & ? & _).
      split; [done|]. by exists u.
    + cbn [fst snd]. split; [done|]. apply menusSet_exploreTrace.
    + cbn [fst snd]. split; [done|].
      by rewrite menusSet_app, menusSet_exploreTrace.
  - intros items e [(_ & x & Hx & ->)|(Hemb' & _)]%setState_inv He; [|congruence].
    apply exploreResult_some in Hx as (_ & u & _ & _ & ->).
    by apply allEntries_leaf in He as ->.
Qed.

Lemma C6_embedded_witness :
  isEmbedded (meta (dashboard embeddedInputs)) = true
  ∧ (panelMenuBehavior exploringWorld embeddedInputs freshStore).1
    = withMenu [exploreItem "/explore?left=x"] freshStore
  ∧ menusSet (panelMenuBehavior exploringWorld embeddedInputs freshStore).2
    = [[exploreItem "/explore?left=x"]].
Proof.
  split; [reflexivity|].
  refine (proj1 (C6_embedded exploringWorld embeddedInputs freshStore eq_refl)
            "/explore?left=x" eq_refl eq_refl _).
  discriminate.
Defined.

(** ** C7: convert to table *)

Lemma strictEqStr_true (v : JsValue) (lit : string) :
  strictEqStr v lit = true ↔ v = JStr lit.
Proof.
  destruct v; simpl; try (split; [done|by intros [=]]).
  rewrite bool_decide_eq_true. split; [by intros ->|by intros [= ->]].
Qed.

Lemma convert_in_more (inp : Inputs) (links : list LinkModel) (c : bool) :
  hasText (selected (moreTable inp links c) ++ [getHelpItem]) "Convert to table"
  ↔ pluginId (state (panel inp)) = "piechart"
    ∧ optChain (getProp (options (state (panel inp))) "legend") "displayMode"
      = JStr "table".
Proof.
  rewrite hasText_more, <- strictEqStr_true. fold (legendIsTable inp). split.
  - intros [(x & Hx & Htxt)|?]; [|done].
    unfold moreTable in Hx. table_rows Hx; try done.
    match goal with H : true = _ |- _ => symmetry in H; rename H into Hc end.
    apply andb_true_iff in Hc as [Hpie%bool_decide_eq_true Hleg]. done.
  - intros [Hpie Hleg]. left. exists convertToTableItem.
    split; [|done]. unfold moreTable.
    rewrite (bool_decide_eq_true_2 _ Hpie), Hleg. simpl. elem_of_list.
Qed.

(** The legend key stays in the options, holding [undefined]. *)
Lemma convert_keeps_legend_key (a : App) :
  options (app_panel (click ConvertToTableClicked a)) !! "legend" = Some JUndefined.
Proof. simpl. apply lookup_insert_eq. Qed.

(** ** C8: extension links *)

Lemma truthyStr_true (x : string) : truthyStr x = true ↔ x ≠ "".
Proof.
  unfold truthyStr. rewrite negb_true_iff, bool_decide_eq_false. done.
Qed.

Lemma linkExtensionsOf_considered (extensions : list PluginExtension) :
  linkExtensionsOf extensions = take 3 (filter considered extensions).
Proof.
  unfold linkExtensionsOf. f_equal. rewrite list_filter_filter.
  apply list_filter_iff. intros x. unfold considered.
  rewrite andb_true_iff, !truthyStr_true. tauto.
Qed.

(** ** C9: calls to the awaited collaborators *)

Lemma exploreResult_threw (w : World) (inp : Inputs) (err : string) :
  exploreResult w inp = Threw err ↔
  hasAccessToExplore inp = true ∧ w TryGetExploreUrlForPanel = Rejected err.
Proof.
  unfold exploreResult. destruct (hasAccessToExplore inp).
  - destruct (w TryGetExploreUrlForPanel) as [u|err']; simpl.
    + split; [done|]. by intros [_ ?].
    + split; [by intros [= ->]|by intros [_ [= ->]]].
  - split; [done|]. by intros [? _].
Qed.

(** The counts of the two awaited calls in every case of an activation. *)
Lemma awaited_calls (w : World) (inp : Inputs) (s : Store) :
  exploreCalls (panelMenuBehavior w inp s).2
  = (if hasAccessToExplore inp then 1 else 0)%nat
  ∧ availabilityCalls (panelMenuBehavior w inp s).2
    = match exploreResult w inp with
      | Returned _ => if isEmbedded (meta (dashboard inp)) then 0 else 1
      | Threw _ => 0
      end%nat.
Proof.
  unfold exploreCalls, availabilityCalls. rewrite panelMenuBehavior_eq.
  destruct (count_exploreTrace inp) as (_ & Ha & He).
  destruct (count_builderCalls w inp s) as (_ & Ha' & He').
  destruct (exploreResult w inp) as [e|err]; simpl.
  2: { rewrite !count_app, Ha, He. simpl. split; lia. }
  destruct (isEmbedded (meta (dashboard inp))).
  - destruct e; simpl; rewrite ?count_app, Ha, He; simpl; split; lia.
  - destruct (w (GetCreateAlertInMenuAvailability (alertArgs inp)));
      simpl; rewrite !count_app, Ha, He, Ha', He'; simpl; split; lia.
Qed.

(** C9 as stated fails when the explore URL helper rejects on a
    non-embedded dashboard: the activation ends there and the
    availability check is not reached. *)
Lemma C9_counterexample :
  isEmbedded (meta (dashboard libraryInputs)) = false
  ∧ availabilityCalls (panelMenuBehavior brokenWorld libraryInputs freshStore).2
    = 0%nat.
Proof. split; reflexivity. Qed.

(** C9 (amended).  In one activation the explore URL is fetched at most
    once, and not at all when the user lacks access to Explore; the
    availability check is made at most once, never on an embedded
    dashboard, and exactly once on a non-embedded dashboard unless the
    explore URL helper rejected. *)
Theorem C9_awaited_once (w : World) (inp : Inputs) (s : Store) :
  let tr := (panelMenuBehavior w inp s).2 in
  (exploreCalls tr ≤ 1)%nat
  ∧ (hasAccessToExplore inp = false → exploreCalls tr = 0%nat)
  ∧ (availabilityCalls tr ≤ 1)%nat
  ∧ (isEmbedded (meta (dashboard inp)) = true → availabilityCalls tr = 0%nat)
  ∧ (isEmbedded (meta (dashboard inp)) = false →
     (hasAccessToExplore inp = true →
      ∀ err, w TryGetExploreUrlForPanel ≠ Rejected err) →
     availabilityCalls tr = 1%nat).
Proof.
  intros tr. subst tr.
  destruct (awaited_calls w inp s) as [-> ->]. split_and!.
  - destruct (hasAccessToExplore inp); lia.
  - by intros ->.
  - destruct (exploreResult w inp), (isEmbedded (meta (dashboard inp))); lia.
  - intros ->. by destruct (exploreResult w inp).
  - intros -> Hok. destruct (exploreResult w inp) as [e|err] eqn:He; [done|].
    apply exploreResult_threw in He as [Hacc Hrej]. by destruct (Hok Hacc err).
Qed.

Lemma C9_awaited_once_witness :
  isEmbedded (meta (dashboard libraryInputs)) = false
  ∧ availabilityCalls (panelMenuBehavior exploringWorld libraryInputs freshStore).2
    = 1%nat.
Proof.
  split; [reflexivity|].
  refine (proj2 (proj2 (proj2 (proj2
            (C9_awaited_once exploringWorld libraryInputs freshStore))))
            eq_refl _).
  intros _ err. discriminate.
Defined.

(** ** C10: determinism *)

Lemma getterInUse_after (w : World) (inp : Inputs) (s : Store) :
  getterInUse w (panelMenuBehavior w inp s).1 = getterInUse w s.
Proof.
  rewrite panelMenuBehavior_eq.
  destruct (exploreResult w inp) as [e|err]; [|done].
  destruct (isEmbedded (meta (dashboard inp))).
  - by destruct e.
  - by destruct (w (GetCreateAlertInMenuAvailability (alertArgs inp))).
Qed.

(** Two activations on the same inputs whose collaborators answer alike
    set the same menus, whatever the stores they start from. *)
Lemma menus_agree (inp : Inputs) (w1 w2 : World) (s1 s2 : Store) :
  w1 TryGetExploreUrlForPanel = w2 TryGetExploreUrlForPanel →
  extensionsOf w1 s1 = extensionsOf w2 s2 →
  extensionSubMenuOf w1 inp s1 = extensionSubMenuOf w2 inp s2 →
  linksOf w1 inp = linksOf w2 inp →
  w1 (GetCreateAlertInMenuAvailability (alertArgs inp))
  = w2 (GetCreateAlertInMenuAvailability (alertArgs inp)) →
  menusSet (panelMenuBehavior w1 inp s1).2 = menusSet (panelMenuBehavior w2 inp s2).2
  ∧ (menuItems s1 = menuItems s2 →
     menuItems (panelMenuBehavior w1 inp s1).1
     = menuItems (panelMenuBehavior w2 inp s2).1).
Proof.
  intros Hexplore Hexts Hsub Hlinks Havail.
  assert (exploreResult w1 inp = exploreResult w2 inp) as He.
  { unfold exploreResult. by rewrite Hexplore. }
  assert (∀ e c, builtMenu w1 inp s1 e c = builtMenu w2 inp s2 e c) as Hmenu.
  { intros e c. unfold builtMenu. by rewrite Hsub, Hlinks. }
  rewrite !panelMenuBehavior_eq, He, Havail.
  destruct (exploreResult w2 inp) as [e|err]; cbn [fst snd].
  2: { by rewrite !menusSet_app, !menusSet_exploreTrace. }
  destruct (isEmbedded (meta (dashboard inp))).
  - destruct e; cbn [fst snd]; [|done].
    by rewrite !menusSet_app, !menusSet_exploreTrace.
  - destruct (w2 (GetCreateAlertInMenuAvailability (alertArgs inp))) as [c|err];
      cbn [fst snd withMenu withGetter menuItems];
      rewrite !menusSet_app, !menusSet_exploreTrace, !menusSet_builderCalls,
        ?Hmenu; done.
Qed.

(** C10.  The build is deterministic.  Two runs on identical inputs, in
    worlds that give identical answers for the explore URL, the plugin
    extensions, the extension sub menu, the panel links and the alert
    availability, set identical menus, from whatever stores they start;
    and they leave identical menu states when they started from
    identical ones.  In particular a second run that follows a first one
    in the same world sets the same menu, although it finds the getter
    cached. *)
Theorem C10_deterministic (inp : Inputs) :
  (∀ (w1 w2 : World) (s1 s2 : Store),
     w1 TryGetExploreUrlForPanel = w2 TryGetExploreUrlForPanel →
     extensionsOf w1 s1 = extensionsOf w2 s2 →
     extensionSubMenuOf w1 inp s1 = extensionSubMenuOf w2 inp s2 →
     linksOf w1 inp = linksOf w2 inp →
     w1 (GetCreateAlertInMenuAvailability (alertArgs inp))
     = w2 (GetCreateAlertInMenuAvailability (alertArgs inp)) →
     menusSet (panelMenuBehavior w1 inp s1).2
     = menusSet (panelMenuBehavior w2 inp s2).2
     ∧ (menuItems s1 = menuItems s2 →
        menuItems (panelMenuBehavior w1 inp s1).1
        = menuItems (panelMenuBehavior w2 inp s2).1))
  ∧ (∀ (w : World) (s : Store),
       let first := panelMenuBehavior w inp s in
       let second := panelMenuBehavior w inp first.1 in
       menusSet second.2 = menusSet first.2).
Proof.
  split; [apply menus_agree|].
  intros w s first second. subst first second.
  assert (extensionsOf w (panelMenuBehavior w inp s).1 = extensionsOf w s) as Hexts.
  { unfold extensionsOf. by rewrite getterInUse_after. }
  apply menus_agree; try done.
  unfold extensionSubMenuOf. by rewrite Hexts.
Qed.

Lemma C10_deterministic_witness :
  extensionsOf extendedWorld freshStore = extensionsOf otherWorld usedStore
  ∧ menusSet (panelMenuBehavior extendedWorld editorInputs freshStore).2
    = menusSet (panelMenuBehavior otherWorld editorInputs usedStore).2.
Proof.
  split; [reflexivity|].
  exact (proj1 (proj1 (C10_deterministic editorInputs)
                  extendedWorld otherWorld freshStore usedStore
                  eq_refl eq_refl eq_refl eq_refl eq_refl)).
Defined.

(** ** Data sources of a panel *)

Lemma getDataSources_uniq (p : VizPanel) :
  getDataSources p = uniq [] (omap queryUid (panelQueries p)).
Proof. unfold getDataSources, panelQueries. by destruct (queryRunner p). Qed.

Lemma elem_of_uniq (seen l : list string) (x : string) :
  x ∈ uniq seen l ↔ x ∈ l ∧ x ∉ seen.
Proof.
  revert seen. induction l as [|y l IH]; intros seen; simpl.
  - rewrite !elem_of_nil. tauto.
  - case_bool_decide as Hy.
    + rewrite IH, elem_of_cons. split; [tauto|].
      intros [[->|Hx] Hn]; [done|tauto].
    + rewrite elem_of_cons, IH, !elem_of_cons. split.
      * intros [->|[Hx Hn]]; [tauto|]. split; [tauto|]. tauto.
      * intros [[->|Hx] Hn]; [tauto|].
        destruct (decide (x = y)) as [->|Hne]; [tauto|]. right. tauto.
Qed.

Lemma NoDup_uniq (seen l : list string) : NoDup (uniq seen l).
Proof.
  revert seen. induction l as [|y l IH]; intros seen; simpl.
  - constructor.
  - case_bool_decide as Hy; [apply IH|].
    apply NoDup_cons. split; [|apply IH].
    rewrite elem_of_uniq, elem_of_cons. tauto.
Qed.

Lemma uniq_sublist (seen l : list string) : uniq seen l `sublist_of` l.
Proof.
  revert seen. induction l as [|y l IH]; intros seen; simpl.
  - constructor.
  - case_bool_decide; [apply sublist_cons|apply sublist_skip]; apply IH.
Qed.

Lemma uniq_NoDup_id (seen l : list string) :
  NoDup l → (∀ x, x ∈ l → x ∉ seen) → uniq seen l = l.
Proof.
  revert seen. induction l as [|y l IH]; intros seen Hnd Hseen; simpl; [done|].
  apply NoDup_cons in Hnd as [Hy Hnd].
  rewrite bool_decide_eq_false_2 by (apply Hseen; left).
  f_equal. apply IH; [done|].
  intros x Hx. rewrite elem_of_cons. intros [->|Hs]; [done|].
  by apply (Hseen x); [right|].
Qed.

Lemma elem_of_queryUids (p : VizPanel) (u : string) :
  u ∈ omap queryUid (panelQueries p) ↔
  u ≠ ""
  ∧ ∃ qr qs query ds,
      queryRunner p = Some qr ∧ queries qr = Some qs ∧ query ∈ qs
      ∧ datasource query = Some ds ∧ ds_uid ds = Some u.
Proof.
  rewrite list_elem_of_omap. unfold panelQueries, queryUid. split.
  - intros (query & Hq & Hu).
    destruct (queryRunner p) as [qr|]; [|by apply elem_of_nil in Hq].
    destruct (queries qr) as [qs|] eqn:Hqs; [|by apply elem_of_nil in Hq].
    simpl in Hq.
    destruct (datasource query) as [ds|] eqn:Hds; [|done].
    destruct (ds_uid ds) as [u'|] eqn:Hu'; [|done].
    destruct (truthyStr u') eqn:Ht; [|done]. simplify_eq.
    split; [by apply truthyStr_true|]. by exists qr, qs, query, ds.
  - intros (Hne & qr & qs & query & ds & -> & Hqs & Hq & Hds & Hu).
    exists query. rewrite Hqs, Hds, Hu. simpl. split; [done|].
    by rewrite (proj2 (truthyStr_true u) Hne).
Qed.

(** X1.  The data source list handed to the availability check never
    repeats a uid and never holds an empty uid. *)
Theorem X1_datasources_distinct (p : VizPanel) :
  NoDup (getDataSources p) ∧ ∀ u, u ∈ getDataSources p → u ≠ "".
Proof.
  rewrite getDataSources_uniq. split; [apply NoDup_uniq|].
  intros u [Hu _]%elem_of_uniq. by apply elem_of_queryUids in Hu as [? _].
Qed.

(** X2.  A uid is in the data source list exactly when it is not empty
    and is the data source uid of one of the queries of the panel's
    query runner; a panel without query runner, or a runner without
    queries, has none. *)
Theorem X2_datasources_members (p : VizPanel) (u : string) :
  u ∈ getDataSources p ↔
  u ≠ ""
  ∧ ∃ qr qs query ds,
      queryRunner p = Some qr ∧ queries qr = Some qs ∧ query ∈ qs
      ∧ datasource query = Some ds ∧ ds_uid ds = Some u.
Proof.
  rewrite getDataSources_uniq, elem_of_uniq, elem_of_queryUids, elem_of_nil.
  tauto.
Qed.

(** X3.  The data source list keeps the order of the queries: it is a
    sublist of the truthy uids in query order, and it is that list
    itself when no two queries share a uid. *)
Theorem X3_datasources_order (p : VizPanel) :
  getDataSources p `sublist_of` omap queryUid (panelQueries p)
  ∧ (NoDup (omap queryUid (panelQueries p)) →
     getDataSources p = omap queryUid (panelQueries p)).
Proof.
  rewrite getDataSources_uniq. split; [apply uniq_sublist|].
  intros Hnd. apply uniq_NoDup_id; [done|]. intros x _. apply not_elem_of_nil.
Qed.

Lemma X3_datasources_order_witness :
  getDataSources queriedPanel = ["prom-1"; "loki-2"]
  ∧ getDataSources queriedPanel `sublist_of` omap queryUid (panelQueries queriedPanel).
Proof.
  split; [reflexivity|].
  exact (proj1 (X3_datasources_order queriedPanel)).
Defined.

(** ** The shape of an activation *)

Lemma isError_exploreTrace (inp : Inputs) (ev : Event) :
  ev ∈ exploreTrace inp → isError ev = false.
Proof. by intros ->%exploreTrace_called. Qed.

(** The outcome of an activation, read off its trace. *)
Lemma behaviour_outcome (w : World) (inp : Inputs) (s : Store) :
  let r := panelMenuBehavior w inp s in
  (menusSet r.2 = [] ∧ count isError r.2 = 0%nat ∧ menuItems r.1 = menuItems s
   ∧ isEmbedded (meta (dashboard inp)) = true)
  ∨ (∃ tr err, r.2 = tr ++ [caught err] ∧ menusSet r.2 = []
       ∧ count isError r.2 = 1%nat ∧ menuItems r.1 = menuItems s)
  ∨ (∃ tr items, r.2 = tr ++ [SetState items] ∧ menusSet r.2 = [items]
       ∧ count isError r.2 = 0%nat ∧ menuItems r.1 = items).
Proof.
  intros r. subst r. rewrite panelMenuBehavior_eq.
  destruct (count_exploreTrace inp) as (Herr & _ & _).
  destruct (count_builderCalls w inp s) as (Herr' & _ & _).
  destruct (exploreResult w inp) as [e|err]; cbn [fst snd].
  2: { right; left. exists (exploreTrace inp), err.
       rewrite menusSet_app, menusSet_exploreTrace, count_app, Herr. done. }
  destruct (isEmbedded (meta (dashboard inp))).
  - destruct e as [x|]; cbn [fst snd].
    + right; right. exists (exploreTrace inp), [x].
      rewrite menusSet_app, menusSet_exploreTrace, count_app, Herr. done.
    + left. by rewrite menusSet_exploreTrace.
  - destruct (w (GetCreateAlertInMenuAvailability (alertArgs inp))) as [c|err];
      cbn [fst snd].
    + right; right.
      exists (exploreTrace inp ++ builderCalls w inp s), (builtMenu w inp s e c).
      rewrite !menusSet_app, menusSet_exploreTrace, menusSet_builderCalls,
        !count_app, Herr, Herr', <- app_assoc. done.
    + right; left. exists (exploreTrace inp ++ builderCalls w inp s), err.
      rewrite !menusSet_app, menusSet_exploreTrace, menusSet_builderCalls,
        !count_app, Herr, Herr', <- app_assoc. done.
Qed.

(** X4.  An activation sets the menu at most once and logs at most one
    error, never both.  When it fails, the error is the last event,
    logged as [Error in panelMenuBehavior], and the menu items stay as
    they were; when it sets a menu, that is its last event and the menu
    items are the ones set. *)
Theorem X4_activation_outcome (w : World) (inp : Inputs) (s : Store) :
  let r := panelMenuBehavior w inp s in
  (length (menusSet r.2) + count isError r.2 ≤ 1)%nat
  ∧ (¬ completed r.2 →
     menusSet r.2 = [] ∧ menuItems r.1 = menuItems s
     ∧ ∃ tr err, r.2 = tr ++ [ConsoleError "Error in panelMenuBehavior" err])
  ∧ (∀ items, SetState items ∈ r.2 →
     menuItems r.1 = items ∧ last r.2 = Some (SetState items))
  ∧ (menusSet r.2 = [] → menuItems r.1 = menuItems s).
Proof.
  intros r. unfold completed.
  destruct (behaviour_outcome w inp s)
    as [(Hm & He & Hs & _)|[(tr & err & Htr & Hm & He & Hs)
                           |(tr & items & Htr & Hm & He & Hs)]];
    fold r in Hm, He, Hs |- *; try fold r in Htr; rewrite ?Hm, ?He; split_and!.
  - simpl. lia.
  - done.
  - intros items Hin. assert (items ∈ menusSet r.2) as Hin'.
    { apply list_elem_of_omap. by exists (SetState items). }
    rewrite Hm in Hin'. by apply elem_of_nil in Hin'.
  - done.
  - simpl. lia.
  - intros _. split_and!; [done|done|]. by exists tr, err.
  - intros items Hin. assert (items ∈ menusSet r.2) as Hin'.
    { apply list_elem_of_omap. by exists (SetState items). }
    rewrite Hm in Hin'. by apply elem_of_nil in Hin'.
  - done.
  - simpl. lia.
  - done.
  - intros items' Hin. assert (items' ∈ menusSet r.2) as Hin'.
    { apply list_elem_of_omap. by exists (SetState items'). }
    rewrite Hm in Hin'. apply list_elem_of_singleton in Hin' as ->.
    split; [done|]. by rewrite Htr, last_snoc.
  - done.
Qed.

Lemma X4_activation_outcome_witness :
  ¬ completed (panelMenuBehavior failingWorld editorInputs usedStore).2
  ∧ menusSet (panelMenuBehavior failingWorld editorInputs usedStore).2 = []
  ∧ menuItems (panelMenuBehavior failingWorld editorInputs usedStore).1
    = menuItems usedStore.
Proof.
  assert (¬ completed (panelMenuBehavior failingWorld editorInputs usedStore).2)
    as Hfail by (vm_compute; discriminate).
  split; [exact Hfail|].
  destruct (proj1 (proj2 (X4_activation_outcome failingWorld editorInputs usedStore))
              Hfail) as (Hm & Hs & _).
  split; [exact Hm|exact Hs].
Defined.

(** X6.  On an embedded dashboard the only collaborator called is the
    explore URL helper, and the cached extension getter is left as it
    was. *)
Theorem X6_embedded_calls (w : World) (inp : Inputs) (s : Store) :
  isEmbedded (meta (dashboard inp)) = true →
  (∀ c, Called c ∈ (panelMenuBehavior w inp s).2 → c = TryGetExploreUrlForPanel)
  ∧ getPluginExtensions (panelMenuBehavior w inp s).1 = getPluginExtensions s.
Proof.
  intros Hemb. rewrite panelMenuBehavior_eq, Hemb.
  destruct (exploreResult w inp) as [[x|]|err]; cbn [fst snd]; split; try done.
  - intros c [H%exploreTrace_called|H%list_elem_of_singleton]%elem_of_app;
      by simplify_eq.
  - intros c H%exploreTrace_called. by simplify_eq.
  - intros c [H%exploreTrace_called|H%list_elem_of_singleton]%elem_of_app;
      by simplify_eq.
Qed.

Lemma X6_embedded_calls_witness :
  isEmbedded (meta (dashboard embeddedInputs)) = true
  ∧ getPluginExtensions (panelMenuBehavior exploringWorld embeddedInputs usedStore).1
    = getPluginExtensions usedStore.
Proof.
  split; [reflexivity|].
  exact (proj2 (X6_embedded_calls exploringWorld embeddedInputs usedStore eq_refl)).
Defined.

Lemma callsOf_app (tr1 tr2 : list Event) :
  callsOf (tr1 ++ tr2) = callsOf tr1 ++ callsOf tr2.
Proof. apply omap_app. Qed.

(** X7.  On a non-embedded dashboard whose explore step does not fail
    the collaborators are called in a fixed order: the explore URL
    helper (with access to Explore only), the creation of the extension
    getter (only when none is cached), the getter, the extension sub
    menu helper, the panel link supplier and last the availability
    check; each once. *)
Theorem X7_call_order (w : World) (inp : Inputs) (s : Store) :
  isEmbedded (meta (dashboard inp)) = false →
  (hasAccessToExplore inp = true →
   ∀ err, w TryGetExploreUrlForPanel ≠ Rejected err) →
  callsOf (panelMenuBehavior w inp s).2
  = (if hasAccessToExplore inp then [TryGetExploreUrlForPanel] else [])
    ++ (if getPluginExtensions s is Some _ then []
        else [CreatePluginExtensionsGetter])
    ++ [ InvokeGetPluginExtensions (getterInUse w s) DashboardPanelMenu;
         CreateExtensionSubMenu (linkExtensionsOf (extensionsOf w s))
           (panelContext inp) "top";
         GetPanelLinks (pluginId (state (panel inp)));
         GetCreateAlertInMenuAvailability (alertArgs inp) ].
Proof.
  intros Hemb Hok. rewrite panelMenuBehavior_eq, Hemb.
  destruct (exploreResult w inp) as [e|err] eqn:He.
  2: { apply exploreResult_threw in He as [Hacc Hrej]. by destruct (Hok Hacc err). }
  assert (callsOf (exploreTrace inp)
          = if hasAccessToExplore inp then [TryGetExploreUrlForPanel] else [])
    as Hex by (unfold exploreTrace; by destruct (hasAccessToExplore inp)).
  assert (callsOf (builderCalls w inp s)
          = (if getPluginExtensions s is Some _ then []
             else [CreatePluginExtensionsGetter])
            ++ [ InvokeGetPluginExtensions (getterInUse w s) DashboardPanelMenu;
                 CreateExtensionSubMenu (linkExtensionsOf (extensionsOf w s))
                   (panelContext inp) "top";
                 GetPanelLinks (pluginId (state (panel inp)));
                 GetCreateAlertInMenuAvailability (alertArgs inp) ]) as Hb.
  { unfold builderCalls, setupCalls. by destruct (getPluginExtensions s). }
  destruct (w (GetCreateAlertInMenuAvailability (alertArgs inp)));
    cbn [snd]; rewrite !callsOf_app, Hex, Hb; simpl; by rewrite app_nil_r.
Qed.

Lemma X7_call_order_witness :
  callsOf (panelMenuBehavior quietWorld libraryInputs usedStore).2
  = [ TryGetExploreUrlForPanel;
      InvokeGetPluginExtensions 3%nat DashboardPanelMenu;
      CreateExtensionSubMenu [] (panelContext libraryInputs) "top";
      GetPanelLinks "timeseries";
      GetCreateAlertInMenuAvailability (alertArgs libraryInputs) ].
Proof.
  refine (X7_call_order quietWorld libraryInputs usedStore eq_refl _).
  intros _ err. discriminate.
Defined.

(** ** The cached extension getter *)

(** What one activation does to the cached getter. *)
Lemma behaviour_getter (w : World) (inp : Inputs) (s : Store) :
  let r := panelMenuBehavior w inp s in
  (getPluginExtensions r.1 = getPluginExtensions s
   ∧ count isCreateGetterCall r.2 = 0%nat
   ∧ ∀ g point, Called (InvokeGetPluginExtensions g point) ∉ r.2)
  ∨ (getPluginExtensions r.1 = Some (getterInUse w s)
     ∧ count isCreateGetterCall r.2
       = (if getPluginExtensions s is Some _ then 0 else 1)%nat
     ∧ ∀ g point, Called (InvokeGetPluginExtensions g point) ∈ r.2 →
         g = getterInUse w s).
Proof.
  intros r. subst r. rewrite panelMenuBehavior_eq.
  assert (count isCreateGetterCall (exploreTrace inp) = 0%nat) as Hex.
  { unfold exploreTrace. by destruct (hasAccessToExplore inp). }
  assert (count isCreateGetterCall (builderCalls w inp s)
          = (if getPluginExtensions s is Some _ then 0 else 1)%nat) as Hb.
  { unfold builderCalls, setupCalls. by destruct (getPluginExtensions s). }
  assert (∀ g point, Called (InvokeGetPluginExtensions g point) ∈ builderCalls w inp s →
            g = getterInUse w s) as Hinv.
  { unfold builderCalls, setupCalls. intros g point [H|H]%elem_of_app.
    - destruct (getPluginExtensions s); [by apply elem_of_nil in H|].
      by apply list_elem_of_singleton in H.
    - repeat (apply elem_of_cons in H as [H|H]; [by simplify_eq|]).
      by apply elem_of_nil in H. }
  destruct (exploreResult w inp) as [e|err]; cbn [fst snd].
  2: { left. rewrite count_app, Hex. split_and!; [done|done|].
       intros g point [H%exploreTrace_called|H%list_elem_of_singleton]%elem_of_app;
         done. }
  destruct (isEmbedded (meta (dashboard inp))).
  - left. destruct e as [x|]; cbn [fst snd]; rewrite ?count_app, Hex;
      (split_and!; [done|done|]).
    + intros g point [H%exploreTrace_called|H%list_elem_of_singleton]%elem_of_app;
        done.
    + by intros g point H%exploreTrace_called.
  - right.
    destruct (w (GetCreateAlertInMenuAvailability (alertArgs inp))) as [c|err];
      cbn [fst snd]; rewrite !count_app, Hex, Hb; simpl;
      (split_and!; [done|lia|]);
      intros g point
        [H%exploreTrace_called|[H|H%list_elem_of_singleton]%elem_of_app]%elem_of_app;
      try done; by eapply Hinv.
Qed.

Lemma getterInUse_cached (w : World) (s : Store) (g : Getter) :
  getPluginExtensions s = Some g → getterInUse w s = g.
Proof. unfold getterInUse. by intros ->. Qed.

Lemma activations_cached (runs : list (World * Inputs)) (s : Store) (g : Getter) :
  getPluginExtensions s = Some g →
  getPluginExtensions (activations runs s).1 = Some g
  ∧ count isCreateGetterCall (activations runs s).2 = 0%nat
  ∧ ∀ g' point, Called (InvokeGetPluginExtensions g' point) ∈ (activations runs s).2 →
      g' = g.
Proof.
  revert s. induction runs as [|[w inp] runs IH]; intros s Hs; simpl.
  - split_and!; [done|done|]. by intros g' point H%elem_of_nil.
  - pose proof (behaviour_getter w inp s) as Hone. simpl in Hone.
    destruct (panelMenuBehavior w inp s) as [s1 tr1]. simpl in Hone.
    assert (getPluginExtensions s1 = Some g ∧ count isCreateGetterCall tr1 = 0%nat
            ∧ ∀ g' point, Called (InvokeGetPluginExtensions g' point) ∈ tr1 → g' = g)
      as (Hs1 & Hc1 & Hi1).
    { rewrite (getterInUse_cached w s g Hs), Hs in Hone.
      destruct Hone as [(-> & Hc & Hno)|(-> & Hc & Hin)]; split_and!; try done.
      intros g' point Hcall. by destruct (Hno g' point). }
    destruct (IH s1 Hs1) as (Hs2 & Hc2 & Hi2).
    destruct (activations runs s1) as [s2 tr2]. simpl in *.
    rewrite count_app, Hc1, Hc2. split_and!; [done|done|].
    intros g' point [H|H]%elem_of_app; eauto.
Qed.

(** X8.  However often the menu is opened, the extension getter is
    created at most once. *)
Theorem X8_getter_created_once (runs : list (World * Inputs)) (s : Store) :
  (count isCreateGetterCall (activations runs s).2 ≤ 1)%nat.
Proof.
  revert s. induction runs as [|[w inp] runs IH]; intros s; simpl; [lia|].
  pose proof (behaviour_getter w inp s) as Hone. simpl in Hone.
  destruct (panelMenuBehavior w inp s) as [s1 tr1]. simpl in Hone.
  destruct Hone as [(_ & Hc & _)|(Hs1 & Hc & _)].
  - specialize (IH s1). destruct (activations runs s1) as [s2 tr2]. simpl in *.
    rewrite count_app, Hc. lia.
  - destruct (activations_cached runs s1 _ Hs1) as (_ & Hc2 & _).
    destruct (activations runs s1) as [s2 tr2]. simpl in *.
    rewrite count_app, Hc, Hc2. destruct (getPluginExtensions s); lia.
Qed.

(** X9.  Once a getter is cached, no later activation creates or caches
    another one, and every plugin extension query goes to that getter. *)
Theorem X9_getter_stable (runs : list (World * Inputs)) (s : Store) (g : Getter) :
  getPluginExtensions s = Some g →
  getPluginExtensions (activations runs s).1 = Some g
  ∧ count isCreateGetterCall (activations runs s).2 = 0%nat
  ∧ ∀ g' point, Called (InvokeGetPluginExtensions g' point) ∈ (activations runs s).2 →
      g' = g.
Proof. intros Hs. destruct (activations_cached runs s g Hs) as (? & ? & ?). done. Qed.

Lemma X9_getter_stable_witness :
  getPluginExtensions usedStore = Some 3%nat
  ∧ getPluginExtensions
      (activations [(otherWorld, editorInputs); (failingWorld, pieInputs);
                    (exploringWorld, embeddedInputs)] usedStore).1
    = Some 3%nat.
Proof.
  split; [reflexivity|].
  exact (proj1 (X9_getter_stable
                  [(otherWorld, editorInputs); (failingWorld, pieInputs);
                   (exploringWorld, embeddedInputs)] usedStore 3%nat eq_refl)).
Defined.

(** ** The layout of the menu *)

Lemma selected_topTable (inp : Inputs) :
  selected (topTable inp)
  = (if negb (editPanel (dashboard inp)) then [viewItem inp] else [])
    ++ (if canEditDashboard (dashboard inp) && editable (dashboard inp)
           && negb (isRepeatCloneOrChildOf (panel inp))
           && negb (editPanel (dashboard inp))
        then [editItem inp] else [])
    ++ (if viewPanelScene (dashboard inp) then [exitFullscreenItem] else [])
    ++ (if negb (editPanel (dashboard inp)) && canEditDashboard (dashboard inp)
           && negb (isRepeatCloneOrChildOf (panel inp))
        then [removeItem] else []).
Proof.
  unfold topTable.
  destruct (editPanel (dashboard inp)), (canEditDashboard (dashboard inp)),
    (editable (dashboard inp)), (isRepeatCloneOrChildOf (panel inp)),
    (viewPanelScene (dashboard inp)); reflexivity.
Qed.

Lemma selected_moreTable (inp : Inputs) (links : list LinkModel) (c : bool) :
  selected (moreTable inp links c)
  = (if bool_decide (pluginId (state (panel inp)) = "piechart")
         && legendIsTable inp
     then [convertToTableItem] else [])
    ++ (if canEditDashboard (dashboard inp)
           && negb (isRepeatCloneOrChildOf (panel inp))
        then [duplicateItem; copyItem] else [])
    ++ (if isLibraryPanel (panel inp)
        then (if canEditDashboard (dashboard inp)
              then [unlinkItem "Unlink library panel"] else [])
        else (if hasAccessToExplore inp
                 && negb (bool_decide (pluginId (state (panel inp)) = "timeseries"))
              then [createLibraryPanelItem] else []))
    ++ [panelTimeOverrideItem]
    ++ (if links is [] then [] else [panelLinksItem links])
    ++ (if c && negb (isRepeatCloneOrChildOf (panel inp))
        then [newAlertRuleItem] else []).
Proof.
  unfold moreTable.
  destruct (bool_decide (pluginId (state (panel inp)) = "piechart")),
    (legendIsTable inp), (canEditDashboard (dashboard inp)),
    (isRepeatCloneOrChildOf (panel inp)), (isLibraryPanel (panel inp)),
    (hasAccessToExplore inp),
    (bool_decide (pluginId (state (panel inp)) = "timeseries")),
    links, c; reflexivity.
Qed.

(** X10.  The top level of the menu of a completed non-embedded
    activation, in order: View (unless a panel is being edited), Edit
    (editable dashboard the user can edit, no read-only repeat, no panel
    being edited), Exit fullscreen (a panel is viewed), the remove entry
    (as Edit, whatever [editable] says), Share, Explore (when obtained),
    Inspect, the extension entries, More. *)
Theorem X10_top_level_layout (w : World) (inp : Inputs) (s : Store) :
  isEmbedded (meta (dashboard inp)) = false →
  completed (panelMenuBehavior w inp s).2 →
  ∃ explore more,
    exploreResult w inp = Returned explore
    ∧ menuItems (panelMenuBehavior w inp s).1
      = (if negb (editPanel (dashboard inp)) then [viewItem inp] else [])
        ++ (if canEditDashboard (dashboard inp) && editable (dashboard inp)
               && negb (isRepeatCloneOrChildOf (panel inp))
               && negb (editPanel (dashboard inp))
            then [editItem inp] else [])
        ++ (if viewPanelScene (dashboard inp) then [exitFullscreenItem] else [])
        ++ (if negb (editPanel (dashboard inp)) && canEditDashboard (dashboard inp)
               && negb (isRepeatCloneOrChildOf (panel inp))
            then [removeItem] else [])
        ++ [shareItem]
        ++ option_list explore
        ++ [inspectItem [ inspectTabItem inp "Data" TabData;
                          inspectTabItem inp "Query" TabQuery;
                          inspectTabItem inp "Panel JSON" TabJSON ]]
        ++ extensionSubMenuOf w inp s
        ++ [moreItem more].
Proof.
  intros Hemb Hdone.
  destruct (completed_inv w inp s Hemb Hdone) as (e & c & He & _ & ->).
  exists e, (selected (moreTable inp (linksOf w inp) c) ++ [getHelpItem]).
  split; [done|]. cbn [fst withMenu menuItems]. unfold builtMenu.
  rewrite selected_topTable, <- !app_assoc. done.
Qed.

Lemma X10_top_level_layout_witness :
  isEmbedded (meta (dashboard editorInputs)) = false
  ∧ completed (panelMenuBehavior quietWorld editorInputs freshStore).2
  ∧ ∃ explore more,
      exploreResult quietWorld editorInputs = Returned explore
      ∧ menuItems (panelMenuBehavior quietWorld editorInputs freshStore).1
        = [viewItem editorInputs] ++ [editItem editorInputs] ++ [] ++ [removeItem]
          ++ [shareItem] ++ option_list explore
          ++ [inspectItem [ inspectTabItem editorInputs "Data" TabData;
                            inspectTabItem editorInputs "Query" TabQuery;
                            inspectTabItem editorInputs "Panel JSON" TabJSON ]]
          ++ extensionSubMenuOf quietWorld editorInputs freshStore
          ++ [moreItem more].
Proof.
  assert (completed (panelMenuBehavior quietWorld editorInputs freshStore).2)
    as Hdone by (vm_compute; reflexivity).
  split; [reflexivity|]. split; [exact Hdone|].
  exact (X10_top_level_layout quietWorld editorInputs freshStore eq_refl Hdone).
Defined.

(** X11.  The More sub menu of a completed non-embedded activation, in
    order: Convert to table (pie chart with a table legend), Duplicate
    and Copy (user can edit, no read-only repeat), Unlink library panel
    or Create library panel, Panel time override (always), Panel links
    (carrying the links supplied, when there are any), New alert rule
    (when it can be created and the panel is no read-only repeat), Get
    help (always, last). *)
Theorem X11_more_layout (w : World) (inp : Inputs) (s : Store) :
  isEmbedded (meta (dashboard inp)) = false →
  completed (panelMenuBehavior w inp s).2 →
  ∃ canCreateAlertRule,
    w (GetCreateAlertInMenuAvailability (alertArgs inp)) = Resolved canCreateAlertRule
    ∧ moreSubMenuOf (menuItems (panelMenuBehavior w inp s).1)
      = (if bool_decide (pluginId (state (panel inp)) = "piechart")
             && legendIsTable inp
         then [convertToTableItem] else [])
        ++ (if canEditDashboard (dashboard inp)
               && negb (isRepeatCloneOrChildOf (panel inp))
            then [duplicateItem; copyItem] else [])
        ++ (if isLibraryPanel (panel inp)
            then (if canEditDashboard (dashboard inp)
                  then [unlinkItem "Unlink library panel"] else [])
            else (if hasAccessToExplore inp
                     && negb (bool_decide
                                (pluginId (state (panel inp)) = "timeseries"))
                  then [createLibraryPanelItem] else []))
        ++ [panelTimeOverrideItem]
        ++ (if linksOf w inp is [] then [] else [panelLinksItem (linksOf w inp)])
        ++ (if canCreateAlertRule && negb (isRepeatCloneOrChildOf (panel inp))
            then [newAlertRuleItem] else [])
        ++ [getHelpItem].
Proof.
  intros Hemb Hdone.
  destruct (completed_inv w inp s Hemb Hdone) as (e & c & _ & Hc & ->).
  exists c. split; [done|]. cbn [fst withMenu menuItems].
  rewrite moreSubMenuOf_builtMenu, selected_moreTable, <- !app_assoc. done.
Qed.

Lemma X11_more_layout_witness :
  isEmbedded (meta (dashboard pieInputs)) = false
  ∧ completed (panelMenuBehavior linkedWorld pieInputs freshStore).2
  ∧ moreSubMenuOf (menuItems (panelMenuBehavior linkedWorld pieInputs freshStore).1)
    = [ convertToTableItem; duplicateItem; copyItem; panelTimeOverrideItem;
        panelLinksItem [runbook]; getHelpItem ].
Proof.
  assert (completed (panelMenuBehavior linkedWorld pieInputs freshStore).2)
    as Hdone by (vm_compute; reflexivity).
  split; [reflexivity|]. split; [exact Hdone|].
  destruct (X11_more_layout linkedWorld pieInputs freshStore eq_refl Hdone)
    as (c & Hc & ->).
  injection Hc as <-. reflexivity.
Defined.

(** Where an entry of the built menu comes from. *)
Lemma builtMenu_entry (w : World) (inp : Inputs) (s : Store)
    (ex : option PanelMenuItem) (c : bool) (e : PanelMenuItem) :
  (∀ x, ex = Some x → isLeaf x) →
  e ∈ allEntries (builtMenu w inp s ex c) →
  e ∈ selected (topTable inp)
  ∨ e ∈ selected (moreTable inp (linksOf w inp) c)
  ∨ e ∈ allEntries (extensionSubMenuOf w inp s)
  ∨ ex = Some e
  ∨ onClick (itemFields e) = None
  ∨ e = shareItem
  ∨ ∃ tab, onClick (itemFields e) = Some (InspectClicked tab).
Proof.
  intros Hex He. unfold builtMenu in He. rewrite !allEntries_app in He.
  rewrite !elem_of_app in He.
  destruct He as [He|[He|[He|[He|[He|He]]]]].
  - left. apply allEntries_leaves in He; [done|apply topTable_leaf].
  - apply allEntries_leaf in He as ->; [|done]. by do 5 right; left.
  - destruct ex as [x|]; [|by apply elem_of_nil in He].
    apply allEntries_leaf in He as ->; [|by apply Hex]. by do 3 right; left.
  - unfold allEntries in He. simpl in He.
    repeat (apply elem_of_cons in He as [->|He];
            [first [by do 4 right; left | do 6 right; by eexists]|]).
    by apply elem_of_nil in He.
  - by do 2 right; left.
  - unfold allEntries in He. cbn [mbind list_bind] in He.
    rewrite app_nil_r in He. unfold moreItem in He.
    rewrite entriesOf_subItems, elem_of_cons, allEntries_app, elem_of_app in He.
    destruct He as [->|[He|He]]; [by do 4 right; left| |].
    + apply list_elem_of_bind in He as (j & He & Hj).
      destruct (moreTable_text _ _ _ _ Hj) as [_ Hj'].
      unfold allEntries in Hj'. simpl in Hj'. rewrite app_nil_r in Hj'.
      rewrite Hj' in He. apply list_elem_of_singleton in He as ->. by right; left.
    + apply allEntries_leaf in He as ->; [|done]. by do 4 right; left.
Qed.

(** X12.  On a read-only repeat, and for a user who cannot edit the
    dashboard, no entry of the menu, at any level, carries the edit,
    remove, duplicate or copy handler; on a read-only repeat none
    carries the alert rule handler, and without edit rights none carries
    the unlink handler.  Only an entry that the extension sub menu helper
    returned could.  The convert and create library panel entries are
    not gated this way and are not part of the statement. *)
Theorem X12_editing_withheld (w : World) (inp : Inputs) (s : Store)
    (items : list PanelMenuItem) (e : PanelMenuItem) :
  SetState items ∈ (panelMenuBehavior w inp s).2 →
  e ∈ allEntries items →
  e ∈ allEntries (extensionSubMenuOf w inp s)
  ∨ ((isRepeatCloneOrChildOf (panel inp) = true
      ∨ canEditDashboard (dashboard inp) = false →
      ¬ isEditingAction (onClick (itemFields e)))
     ∧ (isRepeatCloneOrChildOf (panel inp) = true →
        onClick (itemFields e) ≠ Some NewAlertRuleClicked)
     ∧ (canEditDashboard (dashboard inp) = false →
        onClick (itemFields e) ≠ Some UnlinkLibraryPanelClicked)).
Proof.
  intros [(_ & x & Hx & ->)|(_ & ex & c & Hex & _ & ->)]%setState_inv He.
  - apply exploreResult_some in Hx as (_ & u & _ & _ & ->).
    apply allEntries_leaf in He as ->; [|done]. right.
    unfold isEditingAction. simpl. split_and!; try done.
    intros _ [?|[?|[?|?]]]; done.
  - apply builtMenu_entry in He.
    2: { intros x ->. by apply exploreResult_some in Hex as (_ & u & _ & _ & ->). }
    destruct He as [He|[He|[He|[He|[He|[He|He]]]]]].
    + right. apply elem_of_selected in He. unfold topTable in He.
      unfold isEditingAction.
      table_rows He; simpl; split_and!; try done;
        try (intros _ [?|[?|[?|?]]]; done);
        intros [Hr|Hc] _;
        match goal with H : true = _ |- _ => rewrite ?Hr, ?Hc in H;
          repeat (rewrite ?andb_false_r, ?andb_false_l in H; simpl in H); done end.
    + right. apply elem_of_selected in He. unfold moreTable in He.
      unfold isEditingAction.
      table_rows He; simpl; split_and!; try done;
        try (intros _ [?|[?|[?|?]]]; done);
        try (intros [Hr|Hc] _;
             match goal with H : true = _ |- _ => rewrite ?Hr, ?Hc in H;
               repeat (rewrite ?andb_false_r, ?andb_false_l in H; simpl in H);
               done end);
        intros Hr;
        match goal with H : true = _ |- _ => rewrite ?Hr in H;
          repeat (rewrite ?andb_false_r, ?andb_false_l in H; simpl in H); done end.
    + by left.
    + right. subst ex. apply exploreResult_some in Hex as (_ & u & _ & _ & ->).
      unfold isEditingAction. simpl. split_and!; try done.
      intros _ [?|[?|[?|?]]]; done.
    + right. unfold isEditingAction. rewrite He. split_and!; try done.
      intros _ [?|[?|[?|?]]]; done.
    + right. subst e. unfold isEditingAction. simpl. split_and!; try done.
      intros _ [?|[?|[?|?]]]; done.
    + right. destruct He as [tab ->]. unfold isEditingAction. split_and!; try done.
      intros _ [?|[?|[?|?]]]; done.
Qed.

Lemma X12_editing_withheld_witness :
  SetState repeatMenu ∈ (panelMenuBehavior alertingWorld repeatInputs freshStore).2
  ∧ panelTimeOverrideItem ∈ allEntries repeatMenu
  ∧ (panelTimeOverrideItem
       ∈ allEntries (extensionSubMenuOf alertingWorld repeatInputs freshStore)
     ∨ ((isRepeatCloneOrChildOf (panel repeatInputs) = true
         ∨ canEditDashboard (dashboard repeatInputs) = false →
         ¬ isEditingAction (onClick (itemFields panelTimeOverrideItem)))
        ∧ (isRepeatCloneOrChildOf (panel repeatInputs) = true →
           onClick (itemFields panelTimeOverrideItem) ≠ Some NewAlertRuleClicked)
        ∧ (canEditDashboard (dashboard repeatInputs) = false →
           onClick (itemFields panelTimeOverrideItem)
           ≠ Some UnlinkLibraryPanelClicked))).
Proof.
  assert (SetState repeatMenu
            ∈ (panelMenuBehavior alertingWorld repeatInputs freshStore).2) as Hset.
  { vm_compute. elem_of_list. }
  assert (panelTimeOverrideItem ∈ allEntries repeatMenu) as Hin.
  { vm_compute. elem_of_list. }
  split; [exact Hset|]. split; [exact Hin|].
  exact (X12_editing_withheld alertingWorld repeatInputs freshStore repeatMenu
           panelTimeOverrideItem Hset Hin).
Defined.

(** ** Click handlers *)

Lemma newEffects_emit (h : Handler) (a : App) (l : list Effect) :
  effects (click h a) = effects a ++ l → newEffects h a = l.
Proof. unfold newEffects. intros ->. apply drop_app_length. Qed.

(** What each handler adds to the log. *)
Lemma newEffects_eq (h : Handler) (a : App) :
  effects (click h a) = effects a ++ newEffects h a
  ∧ newEffects h a =
    let id := app_panelId a in
    match h with
    | ViewClicked => [PanelActionClicked "view" id "panel"]
    | EditClicked => [PanelActionClicked "edit" id "panel"]
    | ShareClicked => [PanelActionClicked "share" id "panel"; ShowModal ShareDrawer]
    | ExploreClicked => [PanelActionClicked "explore" id "panel"]
    | InspectClicked TabData =>
        [PanelActionClicked "inspect-data" id "panel-menu-inspect";
         ShowModal (PanelInspectDrawer TabData)]
    | InspectClicked TabQuery =>
        [PanelActionClicked "inspect-query" id "panel-menu-inspect";
         ShowModal (PanelInspectDrawer TabQuery)]
    | InspectClicked TabJSON =>
        [PanelActionClicked "inspect-json" id "panel-menu-inspect";
         ShowModal (PanelInspectDrawer TabJSON)]
    | ExitFullscreenClicked =>
        [PanelActionClicked "view-panel-fullscreen" id "panel";
         LocationPartial [("viewPanel", QNull)]]
    | ConvertToTableClicked => [PanelActionClicked "convert-to-table" id "panel"]
    | DuplicateClicked => [PanelActionClicked "duplicate" id "panel"; DuplicatePanel]
    | CopyClicked => [PanelActionClicked "copy" id "panel"; CopyPanel]
    | UnlinkLibraryPanelClicked =>
        [PanelActionClicked "unlink-from-library" id "panel";
         ShowModal UnlinkLibraryPanelModal]
    | CreateLibraryPanelClicked =>
        [PanelActionClicked "create-library-panel" id "panel"; CreateLibraryPanel]
    | PanelTimeOverrideClicked =>
        [PanelActionClicked "panel-time-override" id "panel";
         ShowModal PanelTimeRangeDrawer]
    | RemoveClicked =>
        [PanelActionClicked "remove" id "panel";
         Publish {| cm_title := "Remove panel";
                    cm_text := "Are you sure you want to remove this panel?";
                    cm_text2 := "This action cannot be undone";
                    cm_yesText := "Remove";
                    cm_icon := "trash-alt";
                    cm_onConfirm := OnConfirm |}]
    | NewAlertRuleClicked =>
        PanelActionClicked "create-alert-rule" id "panel"
        :: (if app_isDirty a then [SaveAndUpdate]
            else [LocationPush (newAlertRuleUrl a)])
    | ExtensionClicked ext => [PluginHandler ext]
    end.
Proof.
  assert (∀ l, effects (click h a) = effects a ++ l →
            effects (click h a) = effects a ++ newEffects h a ∧ newEffects h a = l)
    as Hvia.
  { intros l Hl. by rewrite (newEffects_emit h a l Hl). }
  destruct h as [| | | |[]| | | | | | | | | |ext]; apply Hvia; simpl;
    rewrite <- ?app_assoc; try done.
  destruct (app_isDirty a); simpl; by rewrite <- ?app_assoc.
Qed.



(** X14.  The item name a click reports identifies the entry: two
    handlers that report the same name are the same handler. *)
Theorem X14_reported_names_distinct (h h' : Handler) (a a' : App)
    (item source source' : string) (id id' : Z) :
  newEffects h a !! 0%nat = Some (PanelActionClicked item id source) →
  newEffects h' a' !! 0%nat = Some (PanelActionClicked item id' source') →
  h = h'.
Proof.
  destruct (newEffects_eq h a) as [_ ->], (newEffects_eq h' a') as [_ ->].
  destruct h as [| | | |[]| | | | | | | | | |ext],
    h' as [| | | |[]| | | | | | | | | |ext']; simpl; intros H H';
    simplify_eq; done.
Qed.

Lemma X14_reported_names_distinct_witness :
  newEffects CopyClicked (exampleApp (exampleState "timeseries" ∅) false) !! 0%nat
  = Some (PanelActionClicked "copy" 4 "panel")
  ∧ CopyClicked = CopyClicked.
Proof.
  split; [reflexivity|].
  exact (X14_reported_names_distinct CopyClicked CopyClicked
           (exampleApp (exampleState "timeseries" ∅) false)
           (exampleApp (exampleState "timeseries" ∅) true)
           "copy" "panel" "panel" 4 4 eq_refl eq_refl).
Defined.

(** X15.  Of the [onClick] closures the builder creates only the convert
    handler writes the panel state, and only the alert rule handler on a
    dirty dashboard assigns the dashboard's save callbacks.  What the
    dashboard operations and services the closures call do in turn, and
    what a plugin's handler does, are outside the statement. *)
Theorem X15_click_frame (h : Handler) (a : App) :
  ownHandler h →
  (h ≠ ConvertToTableClicked → app_panel (click h a) = app_panel a)
  ∧ (h ≠ NewAlertRuleClicked ∨ app_isDirty a = false →
     onSaveCompleted (click h a) = onSaveCompleted a
     ∧ onSaveError (click h a) = onSaveError a).
Proof.
  intros _. split.
  - intros Hh. destruct h as [| | | |[]| | | | | | | | | |ext]; try done.
    simpl. by destruct (app_isDirty a).
  - intros Hh. destruct h as [| | | |[]| | | | | | | | | |ext]; try done.
    simpl. destruct (app_isDirty a) eqn:Hd; [|done].
    destruct Hh as [Hh|Hh]; [done|congruence].
Qed.

Lemma X15_click_frame_witness :
  ownHandler NewAlertRuleClicked
  ∧ app_panel (click NewAlertRuleClicked
                 (exampleApp (exampleState "timeseries" ∅) true))
    = exampleState "timeseries" ∅
  ∧ onSaveCompleted (click NewAlertRuleClicked
                       (exampleApp (exampleState "timeseries" ∅) false))
    = onSaveCompleted (exampleApp (exampleState "timeseries" ∅) false).
Proof.
  assert (ownHandler NewAlertRuleClicked) as Hown by (intros id; discriminate).
  split; [exact Hown|]. split.
  - apply (proj1 (X15_click_frame NewAlertRuleClicked
                    (exampleApp (exampleState "timeseries" ∅) true) Hown)).
    discriminate.
  - apply (proj2 (X15_click_frame NewAlertRuleClicked
                    (exampleApp (exampleState "timeseries" ∅) false) Hown)).
    right. reflexivity.
Defined.


(** X17.  Among the [onClick] closures the builder creates, the only
    ones that call the location service are the one of the exit
    fullscreen entry, which clears [viewPanel] by a partial update, and
    the one of the alert rule entry on a clean dashboard, which pushes
    the new alert rule URL.  Navigation through the [href] of an entry
    and what a plugin's handler does are outside the statement. *)
Theorem X17_navigation (h : Handler) (a : App) :
  ownHandler h →
  (∀ url, LocationPush url ∈ newEffects h a ↔
          h = NewAlertRuleClicked ∧ app_isDirty a = false
          ∧ url = newAlertRuleUrl a)
  ∧ (∀ query, LocationPartial query ∈ newEffects h a ↔
              h = ExitFullscreenClicked ∧ query = [("viewPanel", QNull)]).
Proof.
  intros _. destruct (newEffects_eq h a) as [_ ->]. split.
  - intros url. split.
    + destruct h as [| | | |[]| | | | | | | | | |ext]; simpl;
        try (intros He; repeat (apply elem_of_cons in He as [?|He]; [done|]);
             by apply elem_of_nil in He).
      destruct (app_isDirty a); intros He;
        repeat (apply elem_of_cons in He as [?|He]; [by simplify_eq|]);
        by apply elem_of_nil in He.
    + intros (-> & -> & ->). simpl. elem_of_list.
  - intros query. split.
    + destruct h as [| | | |[]| | | | | | | | | |ext]; simpl;
        try (intros He; repeat (apply elem_of_cons in He as [?|He]; [by simplify_eq|]);
             by apply elem_of_nil in He).
      destruct (app_isDirty a); intros He;
        repeat (apply elem_of_cons in He as [?|He]; [done|]);
        by apply elem_of_nil in He.
    + intros (-> & ->). simpl. elem_of_list.
Qed.

Lemma X17_navigation_witness :
  ownHandler ExitFullscreenClicked
  ∧ (LocationPartial [("viewPanel", QNull)]
       ∈ newEffects ExitFullscreenClicked
           (exampleApp (exampleState "timeseries" ∅) false)
     ↔ ExitFullscreenClicked = ExitFullscreenClicked
       ∧ [("viewPanel", QNull)] = [("viewPanel", QNull)]).
Proof.
  assert (ownHandler ExitFullscreenClicked) as Hown by (intros id; discriminate).
  split; [exact Hown|].
  exact (proj2 (X17_navigation ExitFullscreenClicked
                  (exampleApp (exampleState "timeseries" ∅) false) Hown)
           [("viewPanel", QNull)]).
Defined.

(** ** Converting a pie chart *)

(** X18.  Converting is idempotent on the panel state: a second click
    on the convert entry leaves the state the first click produced. *)
Theorem X18_convert_idempotent (a : App) :
  app_panel (click ConvertToTableClicked (click ConvertToTableClicked a))
  = app_panel (click ConvertToTableClicked a).
Proof.
  simpl. f_equal.
  - by rewrite insert_insert_eq.
  - f_equal. unfold getProp at 1. rewrite lookup_insert_eq. simpl.
    by rewrite !insert_insert_eq.
Qed.

(** X19.  After the conversion the convert entry is gone: a menu built
    for the converted panel never holds it in its More sub menu. *)
Theorem X19_convert_not_offered_again (w : World) (inp : Inputs) (s : Store)
    (a : App) (items : list PanelMenuItem) :
  state (panel inp) = app_panel (click ConvertToTableClicked a) →
  SetState items ∈ (panelMenuBehavior w inp s).2 →
  ¬ hasText (moreSubMenuOf items) "Convert to table".
Proof.
  intros Hst [(_ & x & Hx & ->)|(_ & e & c & _ & _ & ->)]%setState_inv.
  - apply exploreResult_some in Hx as (_ & u & _ & _ & ->).
    intros (j & Hj & _). by apply elem_of_nil in Hj.
  - rewrite moreSubMenuOf_builtMenu, convert_in_more, Hst. simpl.
    by intros [? _].
Qed.

Lemma X19_convert_not_offered_again_witness :
  hasText (moreSubMenuOf pieMenu) "Convert to table"
  ∧ SetState convertedMenu
      ∈ (panelMenuBehavior quietWorld convertedInputs freshStore).2
  ∧ ¬ hasText (moreSubMenuOf convertedMenu) "Convert to table".
Proof.
  assert (SetState convertedMenu
            ∈ (panelMenuBehavior quietWorld convertedInputs freshStore).2) as Hset.
  { vm_compute. elem_of_list. }
  split.
  { exists convertToTableItem. split; [|reflexivity]. vm_compute. elem_of_list. }
  split; [exact Hset|].
  exact (X19_convert_not_offered_again quietWorld convertedInputs freshStore
           (exampleApp (state (panel pieInputs)) false) convertedMenu
           eq_refl Hset).
Defined.

(** ** The explore entry *)

(** X20.  [getExploreMenuItem] never touches the store.  Without access
    to Explore it calls nothing and yields no entry.  It yields an entry
    exactly when the user has access and the helper resolves to a URL
    that is not empty, and the entry links to that URL; it fails exactly
    when the user has access and the helper rejects. *)
Theorem X20_getExploreMenuItem (w : World) (inp : Inputs) (s : Store) :
  let r := run w s (getExploreMenuItem inp) in
  r.1.2 = s
  ∧ (hasAccessToExplore inp = false → r = (Returned None, s, []))
  ∧ (∀ x, r.1.1 = Returned (Some x) ↔
          hasAccessToExplore inp = true
          ∧ ∃ u, w TryGetExploreUrlForPanel = Resolved (Some u) ∧ u ≠ ""
                 ∧ x = exploreItem u
                 ∧ href (itemFields x) = Some (UrlString u))
  ∧ (∀ err, r.1.1 = Threw err ↔
            hasAccessToExplore inp = true
            ∧ w TryGetExploreUrlForPanel = Rejected err).
Proof.
  intros r. subst r. rewrite run_getExploreMenuItem. cbn [fst snd]. split_and!.
  - done.
  - intros Hacc. unfold exploreResult, exploreTrace. by rewrite Hacc.
  - intros x. rewrite exploreResult_some. split.
    + intros (Hacc & u & Hu & Hne & ->). split; [done|]. by exists u.
    + intros (Hacc & u & Hu & Hne & -> & _). split; [done|]. by exists u.
  - apply exploreResult_threw.
Qed.

(** ** The extension links *)

Lemma filter_considered_id (l : list PluginExtension) :
  (∀ x, x ∈ l → considered x) → filter considered l = l.
Proof.
  induction l as [|x l IH]; intros Hl; [done|].
  rewrite filter_cons_True by (apply Hl; left).
  f_equal. apply IH. intros y Hy. apply Hl. by right.
Qed.

(** X21.  The choice of extension links keeps the registry order, is
    stable under a second pass, and drops nothing that qualifies when at
    most three extensions qualify. *)
Theorem X21_linkExtensions (l : list PluginExtension) :
  linkExtensionsOf l `sublist_of` l
  ∧ linkExtensionsOf (linkExtensionsOf l) = linkExtensionsOf l
  ∧ ((length (filter considered l) ≤ 3)%nat →
     ∀ x, x ∈ l → considered x → x ∈ linkExtensionsOf l).
Proof.
  rewrite !linkExtensionsOf_considered. split_and!.
  - etrans; [apply sublist_take|apply sublist_filter].
  - rewrite filter_considered_id, take_idemp; [done|].
    intros x Hx%subseteq_take. by apply list_elem_of_filter in Hx as [? _].
  - intros Hlen x Hx Hc. rewrite take_ge by done. by apply list_elem_of_filter.
Qed.

(** ** C7: the convert entry and its handler *)






(** ** C8: the extension links in the menu *)

(** The extension sub menu helper is only called on a non-embedded
    dashboard, with the chosen links, the panel context and [top]. *)
Lemma extension_called_inv (w : World) (inp : Inputs) (s : Store)
    (exts : list PluginExtension) (ctx : PluginExtensionPanelContext)
    (placement : string) :
  Called (CreateExtensionSubMenu exts ctx placement) ∈ (panelMenuBehavior w inp s).2 →
  exts = linkExtensionsOf (extensionsOf w s)
  ∧ ctx = panelContext inp ∧ placement = "top"
  ∧ isEmbedded (meta (dashboard inp)) = false.
Proof.
  rewrite panelMenuBehavior_eq.
  assert (∀ ev, ev ∈ builderCalls w inp s →
            ev = Called (CreateExtensionSubMenu exts ctx placement) →
            exts = linkExtensionsOf (extensionsOf w s)
            ∧ ctx = panelContext inp ∧ placement = "top") as Hcalls.
  { unfold builderCalls, setupCalls. intros ev [H|H]%elem_of_app Heq; subst ev.
    - destruct (getPluginExtensions s); [by apply elem_of_nil in H|].
      by apply list_elem_of_singleton in H.
    - repeat (apply elem_of_cons in H as [H|H]; [by simplify_eq|]).
      by apply elem_of_nil in H. }
  destruct (exploreResult w inp) as [e|err]; simpl.
  2: { rewrite elem_of_app, list_elem_of_singleton.
       intros [H%exploreTrace_called|H]; done. }
  destruct (isEmbedded (meta (dashboard inp))).
  - destruct e as [x|]; simpl.
    + rewrite elem_of_app, list_elem_of_singleton.
      intros [H%exploreTrace_called|H]; done.
    + by intros H%exploreTrace_called.
  - destruct (w (GetCreateAlertInMenuAvailability (alertArgs inp))) as [c|err];
      simpl; rewrite !elem_of_app, list_elem_of_singleton;
      (intros [H%exploreTrace_called|[H|H]]; [done| |done]);
      (destruct (Hcalls _ H eq_refl) as (? & ? & ?); done).
Qed.

(** The menus set depend on the collaborators through the explore URL,
    the answer of the extension sub menu helper, the panel links and the
    availability only. *)
Lemma menus_of_answers (inp : Inputs) (w1 w2 : World) (s1 s2 : Store) :
  w1 TryGetExploreUrlForPanel = w2 TryGetExploreUrlForPanel →
  extensionSubMenuOf w1 inp s1 = extensionSubMenuOf w2 inp s2 →
  linksOf w1 inp = linksOf w2 inp →
  w1 (GetCreateAlertInMenuAvailability (alertArgs inp))
  = w2 (GetCreateAlertInMenuAvailability (alertArgs inp)) →
  menusSet (panelMenuBehavior w1 inp s1).2 = menusSet (panelMenuBehavior w2 inp s2).2.
Proof.
  intros Hexplore Hsub Hlinks Havail.
  assert (exploreResult w1 inp = exploreResult w2 inp) as He.
  { unfold exploreResult. by rewrite Hexplore. }
  assert (∀ e c, builtMenu w1 inp s1 e c = builtMenu w2 inp s2 e c) as Hmenu.
  { intros e c. unfold builtMenu. by rewrite Hsub, Hlinks. }
  rewrite !panelMenuBehavior_eq, He, Havail.
  destruct (exploreResult w2 inp) as [e|err]; cbn [fst snd].
  2: { by rewrite !menusSet_app, !menusSet_exploreTrace. }
  destruct (isEmbedded (meta (dashboard inp))).
  - destruct e; cbn [fst snd]; [|done].
    by rewrite !menusSet_app, !menusSet_exploreTrace.
  - destruct (w2 (GetCreateAlertInMenuAvailability (alertArgs inp))) as [c|err];
      cbn [fst snd];
      rewrite !menusSet_app, !menusSet_exploreTrace, !menusSet_builderCalls,
        ?Hmenu; done.
Qed.

(** C8.  The extension sub menu helper is called with at most three
    extensions: the first three, in registry order, of those that are of
    link type and have a title and a description that are not empty; no
    other extension reaches it.  The menu is the builder's own entries,
    in their fixed places, with the helper's answer for these links
    between the inspect entry and the More entry and nowhere else: so
    the links included in the menu are these, at most three, and when
    the helper answers with at most one entry per link the menu holds at
    most three extension entries.  An extension that is not among them
    is not considered at all: with a registry that yields the same three
    the menu is the same. *)
Theorem C8_extension_links (w : World) (inp : Inputs) (s : Store)
    (exts : list PluginExtension) (ctx : PluginExtensionPanelContext)
    (placement : string) :
  Called (CreateExtensionSubMenu exts ctx placement) ∈ (panelMenuBehavior w inp s).2 →
  let answer := w (CreateExtensionSubMenu exts ctx placement) in
  (length exts ≤ 3)%nat
  ∧ exts = take 3 (filter considered (extensionsOf w s))
  ∧ (∀ x, x ∈ exts → considered x ∧ x ∈ extensionsOf w s)
  ∧ (∀ exts' ctx' placement',
       Called (CreateExtensionSubMenu exts' ctx' placement')
         ∈ (panelMenuBehavior w inp s).2 →
       exts' = exts)
  ∧ (∀ items, SetState items ∈ (panelMenuBehavior w inp s).2 →
       ∃ explore canCreateAlertRule,
         exploreResult w inp = Returned explore
         ∧ items
           = (if negb (editPanel (dashboard inp)) then [viewItem inp] else [])
             ++ (if canEditDashboard (dashboard inp) && editable (dashboard inp)
                    && negb (isRepeatCloneOrChildOf (panel inp))
                    && negb (editPanel (dashboard inp))
                 then [editItem inp] else [])
             ++ (if viewPanelScene (dashboard inp)
                 then [exitFullscreenItem] else [])
             ++ (if negb (editPanel (dashboard inp))
                    && canEditDashboard (dashboard inp)
                    && negb (isRepeatCloneOrChildOf (panel inp))
                 then [removeItem] else [])
             ++ [shareItem]
             ++ option_list explore
             ++ [inspectItem [ inspectTabItem inp "Data" TabData;
                               inspectTabItem inp "Query" TabQuery;
                               inspectTabItem inp "Panel JSON" TabJSON ]]
             ++ answer
             ++ [moreItem
                   ((if bool_decide (pluginId (state (panel inp)) = "piechart")
                         && legendIsTable inp
                     then [convertToTableItem] else [])
                    ++ (if canEditDashboard (dashboard inp)
                           && negb (isRepeatCloneOrChildOf (panel inp))
                        then [duplicateItem; copyItem] else [])
                    ++ (if isLibraryPanel (panel inp)
                        then (if canEditDashboard (dashboard inp)
                              then [unlinkItem "Unlink library panel"] else [])
                        else (if hasAccessToExplore inp
                                 && negb (bool_decide
                                            (pluginId (state (panel inp))
                                             = "timeseries"))
                              then [createLibraryPanelItem] else []))
                    ++ [panelTimeOverrideItem]
                    ++ (if linksOf w inp is []
                        then [] else [panelLinksItem (linksOf w inp)])
                    ++ (if canCreateAlertRule
                           && negb (isRepeatCloneOrChildOf (panel inp))
                        then [newAlertRuleItem] else [])
                    ++ [getHelpItem])])
  ∧ ((length answer ≤ length exts)%nat → (length answer ≤ 3)%nat)
  ∧ (∀ w' : World,
       (∀ c, (∀ g point, c ≠ InvokeGetPluginExtensions g point) → w' c = w c) →
       take 3 (filter considered (extensionsOf w' s)) = exts →
       menusSet (panelMenuBehavior w' inp s).2
       = menusSet (panelMenuBehavior w inp s).2).
Proof.
  intros Hcall answer.
  assert (∀ exts' ctx' placement',
            Called (CreateExtensionSubMenu exts' ctx' placement')
              ∈ (panelMenuBehavior w inp s).2 →
            exts' = take 3 (filter considered (extensionsOf w s))
            ∧ ctx' = panelContext inp ∧ placement' = "top") as Hargs.
  { intros exts' ctx' placement' (-> & -> & -> & _)%extension_called_inv.
    by rewrite linkExtensionsOf_considered. }
  destruct (extension_called_inv _ _ _ _ _ _ Hcall) as (_ & _ & _ & Hemb).
  destruct (Hargs _ _ _ Hcall) as (Hexts & -> & ->).
  assert ((length exts ≤ 3)%nat) as Hlen.
  { rewrite Hexts, length_take. lia. }
  assert (answer = extensionSubMenuOf w inp s) as Hanswer.
  { subst answer. unfold extensionSubMenuOf.
    by rewrite linkExtensionsOf_considered, <- Hexts. }
  split_and!.
  - done.
  - done.
  - intros x Hx. rewrite Hexts in Hx. apply subseteq_take in Hx.
    by apply list_elem_of_filter in Hx.
  - intros exts' ctx' placement' Hcall'.
    destruct (Hargs _ _ _ Hcall') as (-> & _). done.
  - intros items [(? & _)|(_ & e & c & He & _ & ->)]%setState_inv; [congruence|].
    exists e, c. split; [done|]. unfold builtMenu.
    rewrite selected_topTable, selected_moreTable, Hanswer, <- !app_assoc. done.
  - lia.
  - intros w' Hsame Hexts'.
    assert (∀ pid, w' (GetPanelLinks pid) = w (GetPanelLinks pid)) as Hlinks.
    { intros pid. by apply (Hsame (GetPanelLinks pid)). }
    apply menus_of_answers.
    + by apply (Hsame TryGetExploreUrlForPanel).
    + rewrite <- Hanswer. subst answer. unfold extensionSubMenuOf.
      rewrite linkExtensionsOf_considered, Hexts'.
      by apply (Hsame (CreateExtensionSubMenu exts (panelContext inp) "top")).
    + unfold linksOf. by rewrite Hlinks.
    + by apply (Hsame (GetCreateAlertInMenuAvailability (alertArgs inp))).
Qed.

Lemma C8_extension_links_witness :
  Called (CreateExtensionSubMenu threeLinks (panelContext editorInputs) "top")
    ∈ (panelMenuBehavior extendedWorld editorInputs freshStore).2
  ∧ threeLinks = take 3 (filter considered (extensionsOf extendedWorld freshStore))
  ∧ menusSet (panelMenuBehavior threeWorld editorInputs freshStore).2
    = menusSet (panelMenuBehavior extendedWorld editorInputs freshStore).2.
Proof.
  assert (Called (CreateExtensionSubMenu threeLinks (panelContext editorInputs) "top")
            ∈ (panelMenuBehavior extendedWorld editorInputs freshStore).2) as Hcall.
  { vm_compute. elem_of_list. }
  pose proof (C8_extension_links extendedWorld editorInputs freshStore _ _ _ Hcall)
    as (_ & Hexts & _ & _ & _ & _ & Hindep).
  split; [exact Hcall|]. split; [exact Hexts|].
  apply Hindep.
  - intros c Hc. destruct c; try reflexivity. by destruct (Hc g extensionPointId).
  - reflexivity.
Defined.
